(** * ValueBench: evaluation store and generation pipeline

    A shallow embedding of [src/evaluation_store.py] (class
    [EvaluationStore]) and of the two control loops of [generator.py],
    together with the properties the specification states about them. *)

From Stdlib Require Import Ascii String NArith List Lia.
From stdpp Require Import base option list gmap strings.

Local Open Scope string_scope.
Set Warnings "-register-all".

(** ** Python strings

    A Python [str] is a sequence of code points.  The embedding covers the
    code points below 256: one Rocq [ascii] per character, its numeric value
    being the code point (the Latin-1 block of Unicode).  [str.lower] and the
    [\w] class of [re] are written out for exactly that range. *)

Module PyStr.

Definition code (c : ascii) : N := N_of_ascii c.

Definition between (lo hi n : N) : bool := (lo <=? n)%N && (n <=? hi)%N.

(** [str.lower] on one character: A-Z and the Latin-1 capitals
    U+00C0..U+00D6, U+00D8..U+00DE move up by 32; everything else stays. *)
Definition lower_char (c : ascii) : ascii :=
  let n := code c in
  if between 65 90 n || between 192 214 n || between 216 222 n
  then ascii_of_N (n + 32) else c.

Fixpoint lower (s : string) : string :=
  match s with
  | EmptyString => EmptyString
  | String c r => String (lower_char c) (lower r)
  end.

(** [str.isalnum] on one character (alphabetic, decimal, digit or numeric). *)
Definition isalnum (c : ascii) : bool :=
  let n := code c in
  between 48 57 n || between 65 90 n || between 97 122 n
  || (n =? 170)%N || (n =? 178)%N || (n =? 179)%N || (n =? 181)%N
  || (n =? 185)%N || (n =? 186)%N || between 188 190 n
  || between 192 214 n || between 216 246 n || between 248 255 n.

(** The class [\w] of a [str] pattern: alphanumeric or underscore. *)
Definition re_word (c : ascii) : bool := isalnum c || (code c =? 95)%N.

(** [re.sub(cls, repl, s)] for a pattern that is one character class and a
    replacement that is one character. *)
Fixpoint re_sub_class (cls : ascii -> bool) (repl : ascii) (s : string) : string :=
  match s with
  | EmptyString => EmptyString
  | String c r =>
      String (if cls c then repl else c) (re_sub_class cls repl r)
  end.

Definition is_ascii (c : ascii) : bool := (code c <? 128)%N.

Fixpoint all_chars (p : ascii -> bool) (s : string) : bool :=
  match s with
  | EmptyString => true
  | String c r => p c && all_chars p r
  end.

End PyStr.

(** ** Session file names *)

Module FileName.
Import PyStr.

(** The pattern [[^\w\-.]]: anything that is not a word character, a hyphen
    or a full stop. *)
Definition unsafe_char (c : ascii) : bool :=
  negb (re_word c || (code c =? 45)%N || (code c =? 46)%N).

(** [EvaluationStore._sanitize_email] *)
Definition _sanitize_email (email : string) : string :=
  re_sub_class unsafe_char "_"%char (lower email).

(** The file name part of [EvaluationStore._get_session_file_path]. *)
Definition session_file_name (email : string) : string :=
  "session_" +:+ _sanitize_email email +:+ ".json".

(** The derivation as the specification words it: the class is the ASCII
    class [[A-Za-z0-9_.-]]. *)
Definition spec_class (c : ascii) : bool :=
  let n := code c in
  between 65 90 n || between 97 122 n || between 48 57 n
  || (n =? 95)%N || (n =? 46)%N || (n =? 45)%N.

Definition spec_sanitize (email : string) : string :=
  re_sub_class (fun c => negb (spec_class c)) "_"%char (lower email).

Definition spec_session_file_name (email : string) : string :=
  "session_" +:+ spec_sanitize email +:+ ".json".

(** "josé@x.org" *)
Definition jose_email : string :=
  String "j" (String "o" (String "s" (String (ascii_of_N 233) "@x.org"))).

End FileName.

(** ** Exceptions and the state-and-exception monad

    Python code that mutates objects and raises is embedded as a function
    from a state to an outcome and the state it leaves behind: an exception
    does not undo the mutations made before it. *)

Inductive Exception : Type :=
  | ValueError (msg : string)
  | RuntimeError (msg : string)
  | KeyError (key : string)
  | IndexError
  | TypeError
  | ValidationError
  | OSError (path : string)
  | CompletionError.

(** [str(e)] as interpolated into a message. *)
Definition str_of_exception (e : Exception) : string :=
  match e with
  | ValueError m => m
  | RuntimeError m => m
  | KeyError k => "'" +:+ k +:+ "'"
  | IndexError => "list index out of range"
  | TypeError => "type error"
  | ValidationError => "validation error"
  | OSError p => "cannot open " +:+ p
  | CompletionError => "completion failed"
  end.

Inductive Result (A : Type) : Type :=
  | Ok (a : A)
  | Raise (e : Exception).
Arguments Ok {A} a.
Arguments Raise {A} e.

Definition M (S A : Type) : Type := S -> Result A * S.

Definition ret {S A} (a : A) : M S A := fun s => (Ok a, s).

Definition bind {S A B} (m : M S A) (k : A -> M S B) : M S B :=
  fun s => match m s with
           | (Ok a, s') => k a s'
           | (Raise e, s') => (Raise e, s')
           end.

Definition raise {S A} (e : Exception) : M S A := fun s => (Raise e, s).

Definition get_state {S} : M S S := fun s => (Ok s, s).

Definition modify {S} (f : S -> S) : M S unit := fun s => (Ok tt, f s).

(** [try: body  except Exception as e: handler(e)] *)
Definition try_except {S A} (body : M S A) (handler : Exception -> M S A) : M S A :=
  fun s => match body s with
           | (Ok a, s') => (Ok a, s')
           | (Raise e, s') => handler e s'
           end.

Declare Scope py_scope.
Delimit Scope py_scope with py.
Notation "x <- c ;; k" := (bind c (fun x => k))
  (at level 100, c at next level, right associativity) : py_scope.
Notation "c ;;; k" := (bind c (fun _ => k))
  (at level 100, right associativity) : py_scope.

(** ** Cases and the case history log *)

Module Case.

(** Modelled from the spec: the value tag type of [response_models.case],
    which is not among the sources; one of positive, negative, neutral. *)
Inductive ValueTag : Type := positive | negative | neutral.

Global Instance ValueTag_eq_dec : EqDecision ValueTag.
Proof. solve_decision. Defined.

(** Modelled from the spec: [DraftCase] of [response_models.case], which is
    not among the sources; the three text fields the generator reads. *)
Record DraftCase : Type := {
  vignette : string;
  choice_1 : string;
  choice_2 : string
}.

(** Modelled from the spec: one choice of a tagged case, its text and a tag
    per value axis (the generator reads the tags through
    [choice.__dict__[axis]]). *)
Record ChoiceWithValues : Type := {
  choice : string;
  autonomy : ValueTag;
  beneficence : ValueTag;
  nonmaleficence : ValueTag;
  justice : ValueTag
}.

(** Modelled from the spec: [BenchmarkCandidate] of [response_models.case], a
    case tagged with values. *)
Record BenchmarkCandidate : Type := {
  bc_vignette : string;
  bc_choice_1 : ChoiceWithValues;
  bc_choice_2 : ChoiceWithValues
}.

(** The snapshot an iteration holds: a case or a case tagged with values. *)
Inductive CaseData : Type :=
  | Draft (d : DraftCase)
  | Tagged (b : BenchmarkCandidate).

(** [isinstance(x, BenchmarkCandidate)] *)
Definition as_BenchmarkCandidate (x : CaseData) : option BenchmarkCandidate :=
  match x with
  | Tagged b => Some b
  | Draft _ => None
  end.

(** Modelled from the spec: the iteration entries of [CaseRecord], whose
    class is not among the sources.  An entry is a content snapshot under one
    of the four snapshot tags, or a human evaluation carrying its decision,
    evaluator, edit flag and notes. *)
Inductive SnapshotStep : Type := draft | refined | tagged | value_adjusted.

Record EvaluationMeta : Type := {
  decision : string;
  evaluator : string;
  has_edits : bool;
  notes : option string
}.

Inductive IterationKind : Type :=
  | Snapshot (step : SnapshotStep)
  | HumanEvaluation (meta : EvaluationMeta).

Record Iteration : Type := {
  iteration : nat;
  kind : IterationKind;
  data : CaseData;
  timestamp : string
}.

Definition step_description (it : Iteration) : string :=
  match kind it with
  | Snapshot draft => "draft"
  | Snapshot refined => "refined"
  | Snapshot tagged => "tagged"
  | Snapshot value_adjusted => "value_adjusted"
  | HumanEvaluation _ => "human_evaluation"
  end.

Record CaseRecord : Type := {
  case_id : string;
  refinement_history : list Iteration
}.

(** The dictionary [get_latest_evaluation] returns. *)
Record EvalData : Type := {
  ed_iteration : nat;
  ed_evaluated_at : string;
  ed_decision : string;
  ed_evaluator : string;
  ed_has_edits : bool;
  ed_notes : option string
}.

Definition eval_data_of (it : Iteration) : option EvalData :=
  match kind it with
  | HumanEvaluation m =>
      Some {| ed_iteration := iteration it;
              ed_evaluated_at := timestamp it;
              ed_decision := decision m;
              ed_evaluator := evaluator m;
              ed_has_edits := has_edits m;
              ed_notes := notes m |}
  | Snapshot _ => None
  end.

Fixpoint latest_evaluation (h : list Iteration) : option EvalData :=
  match h with
  | [] => None
  | it :: rest =>
      match latest_evaluation rest with
      | Some e => Some e
      | None => eval_data_of it
      end
  end.

(** Modelled from the spec: [CaseRecord.get_latest_evaluation], the metadata
    of the most recent human evaluation iteration, or none. *)
Definition get_latest_evaluation (r : CaseRecord) : option EvalData :=
  latest_evaluation (refinement_history r).

(** Modelled from the spec: [CaseRecord.final_case], the data of the last
    iteration of the log; there is none in an empty log. *)
Definition final_case (r : CaseRecord) : option CaseData :=
  data <$> last (refinement_history r).

Definition valid_decision (d : string) : bool :=
  bool_decide (d ∈ ["approve"; "reject"]).

(** Modelled from the spec: [CaseRecord.add_human_evaluation].  It appends
    one human evaluation iteration under the next sequence index; the
    snapshot is the edited case when there is one and the case of the
    preceding iteration otherwise. *)
Definition add_human_evaluation (r : CaseRecord) (dec ev : string)
    (updated_case : option BenchmarkCandidate) (nts : option string)
    (now : string) : Result CaseRecord :=
  if negb (valid_decision dec) then Raise (ValueError ("Invalid decision: " +:+ dec))
  else
    let snapshot :=
      match updated_case with
      | Some b => Some (Tagged b)
      | None => final_case r
      end in
    match snapshot with
    | None => Raise IndexError
    | Some d =>
        Ok {| case_id := case_id r;
              refinement_history :=
                refinement_history r ++
                [ {| iteration := length (refinement_history r);
                     kind := HumanEvaluation
                               {| decision := dec; evaluator := ev;
                                  has_edits := bool_decide (is_Some updated_case);
                                  notes := nts |};
                     data := d;
                     timestamp := now |} ] |}
    end.

(** The log invariant: every iteration carries its position. *)
Definition well_formed (h : list Iteration) : Prop :=
  ∀ i it, h !! i = Some it → iteration it = i.

Definition is_evaluation (it : Iteration) : bool :=
  match kind it with
  | HumanEvaluation _ => true
  | Snapshot _ => false
  end.

End Case.

(** ** The evaluation store *)

Module Store.
Import Case.

(** JSON documents as [json.load] returns them, built from null, strings,
    lists and dictionaries (a dictionary as its items in file order). *)
Inductive JSON : Type :=
  | JNull
  | JString (s : string)
  | JArray (items : list JSON)
  | JObject (fields : list (string * JSON)).

(** [UserSession] *)
Record UserSession : Type := {
  user_email : string;
  session_id : string;
  started_at : string;
  last_updated : string;
  reviewed_case_ids : gset string
}.

(** [CaseEvaluation]: both case fields are typed [BenchmarkCandidate]. *)
Record CaseEvaluation : Type := {
  ce_case_id : string;
  evaluated_at : string;
  ce_decision : string;
  ce_evaluator : string;
  original_case : BenchmarkCandidate;
  updated_case : option BenchmarkCandidate;
  ce_notes : option string
}.

(** Modelled from the spec: the [CaseLoader] collaborator, which is not among
    the sources; the stored records, and whether [save_case] can write. *)
Record CaseLoader : Type := {
  cases : gmap string CaseRecord;
  cases_writable : bool
}.

(** Everything the store's methods read or mutate: the store object, the
    session directory on disk, the case loader and the clock. *)
Record World : Type := {
  evaluations_dir : string;
  current_session : option UserSession;
  files : gmap string JSON;
  files_writable : bool;
  loader : CaseLoader;
  clock : nat
}.

Definition set_current_session (s : option UserSession) (w : World) : World :=
  {| evaluations_dir := evaluations_dir w; current_session := s;
     files := files w; files_writable := files_writable w;
     loader := loader w; clock := clock w |}.

Definition set_files (f : gmap string JSON) (w : World) : World :=
  {| evaluations_dir := evaluations_dir w; current_session := current_session w;
     files := f; files_writable := files_writable w;
     loader := loader w; clock := clock w |}.

Definition set_loader (l : CaseLoader) (w : World) : World :=
  {| evaluations_dir := evaluations_dir w; current_session := current_session w;
     files := files w; files_writable := files_writable w;
     loader := l; clock := clock w |}.

Definition tick (w : World) : World :=
  {| evaluations_dir := evaluations_dir w; current_session := current_session w;
     files := files w; files_writable := files_writable w;
     loader := loader w; clock := S (clock w) |}.

Definition set_last_updated (t : string) (s : UserSession) : UserSession :=
  {| user_email := user_email s; session_id := session_id s;
     started_at := started_at s; last_updated := t;
     reviewed_case_ids := reviewed_case_ids s |}.

Definition add_reviewed (cid : string) (s : UserSession) : UserSession :=
  {| user_email := user_email s; session_id := session_id s;
     started_at := started_at s; last_updated := last_updated s;
     reviewed_case_ids := {[cid]} ∪ reviewed_case_ids s |}.

(** *** Reading an evaluation back from the log *)

(** The backward loop of [get_evaluation]: indices [n-1], [n-2], ..., 0;
    positions outside the log are skipped; the first iteration whose step
    is not a human evaluation ends the loop. *)
Fixpoint scan_back (h : list Iteration) (n : nat) : option CaseData :=
  match n with
  | 0 => None
  | S i =>
      match h !! i with
      | Some rec =>
          if bool_decide (step_description rec ≠ "human_evaluation")
          then Some (data rec)
          else scan_back h i
      | None => scan_back h i
      end
  end.

(** The constructor call [CaseEvaluation(...)]: the field types are checked,
    so the values handed to the two case fields have to be tagged cases. *)
Definition make_CaseEvaluation (cid : string) (e : EvalData)
    (orig : CaseData) (upd : option CaseData) : Result CaseEvaluation :=
  match as_BenchmarkCandidate orig, upd with
  | Some o, None =>
      Ok {| ce_case_id := cid; evaluated_at := ed_evaluated_at e;
            ce_decision := ed_decision e; ce_evaluator := ed_evaluator e;
            original_case := o; updated_case := None; ce_notes := ed_notes e |}
  | Some o, Some (Tagged u) =>
      Ok {| ce_case_id := cid; evaluated_at := ed_evaluated_at e;
            ce_decision := ed_decision e; ce_evaluator := ed_evaluator e;
            original_case := o; updated_case := Some u; ce_notes := ed_notes e |}
  | _, _ => Raise ValidationError
  end.

(** [EvaluationStore.get_evaluation] *)
Definition get_evaluation (cid : string) (case_loader : CaseLoader)
    : Result (option CaseEvaluation) :=
  match cases case_loader !! cid with
  | None => Ok None
  | Some case_record =>
      match get_latest_evaluation case_record with
      | None => Ok None
      | Some eval_data =>
          let h := refinement_history case_record in
          let eval_iteration := ed_iteration eval_data in
          let original_case :=
            match scan_back h eval_iteration with
            | Some d => Some d
            | None => data <$> h !! 0
            end in
          let current_case :=
            match h !! eval_iteration with
            | Some it => Some (data it)
            | None => final_case case_record
            end in
          match current_case with
          | None => Raise IndexError
          | Some cur =>
              let updated := if ed_has_edits eval_data then Some cur else None in
              let orig :=
                match original_case with
                | Some (Tagged b) => Tagged b
                | _ => cur
                end in
              match make_CaseEvaluation cid eval_data orig updated with
              | Ok view => Ok (Some view)
              | Raise e => Raise e
              end
          end
      end
  end.

(** The view of an evaluation iteration with given original and updated
    cases, for stating what [get_evaluation] returns. *)
Definition view_of (cid : string) (it : Iteration) (m : EvaluationMeta)
    (orig : BenchmarkCandidate) (upd : option BenchmarkCandidate) : CaseEvaluation :=
  {| ce_case_id := cid; evaluated_at := timestamp it;
     ce_decision := decision m; ce_evaluator := evaluator m;
     original_case := orig; updated_case := upd; ce_notes := notes m |}.

(** *** Read-side session queries *)

(** [EvaluationStore.has_reviewed] *)
Definition has_reviewed (cid : string) (w : World) : bool :=
  match current_session w with
  | None => false
  | Some s => bool_decide (cid ∈ reviewed_case_ids s)
  end.

(** [EvaluationStore.get_unreviewed_cases] *)
Definition get_unreviewed_cases (all_case_ids : list string) (w : World) : list string :=
  match current_session w with
  | None => all_case_ids
  | Some s =>
      List.filter (fun cid => negb (bool_decide (cid ∈ reviewed_case_ids s))) all_case_ids
  end.

(** *** Sessions on disk and the recording transaction *)

Section WriteSide.

(** [datetime.now().isoformat()] at a given reading of the clock. *)
Variable isoformat : nat -> string.

(** [list(s)] for a set of strings: Python fixes no order. *)
Variable set_to_list : gset string -> list string.

Definition now : M World string :=
  fun w => (Ok (isoformat (clock w)), tick w).

(** [EvaluationStore._get_session_file_path] *)
Definition _get_session_file_path (dir email : string) : string :=
  dir +:+ "/" +:+ FileName.session_file_name email.

(** The dictionary [save_session] serialises. *)
Definition session_dict (s : UserSession) : JSON :=
  JObject [ ("user_email", JString (user_email s));
            ("session_id", JString (session_id s));
            ("started_at", JString (started_at s));
            ("last_updated", JString (last_updated s));
            ("reviewed_case_ids",
               JArray (JString <$> set_to_list (reviewed_case_ids s))) ].

(** [open(path, 'w')] followed by [json.dump]. *)
Definition write_json (path : string) (doc : JSON) : M World unit :=
  fun w =>
    if files_writable w
    then (Ok tt, set_files (<[path := doc]> (files w)) w)
    else (Raise (OSError path), w).

(** [EvaluationStore.save_session].  The session object is mutated
    ([last_updated]) before the file is opened; the mutated object is
    returned, and it is also the store's [current_session] when no session
    was passed. *)
Definition save_session (session : option UserSession) : M World UserSession :=
  (w <- get_state ;;
   match (match session with Some s => Some s | None => current_session w end) with
   | None => raise (ValueError "No session to save")
   | Some s =>
       t <- now ;;
       let s' := set_last_updated t s in
       (match session with
        | None => modify (set_current_session (Some s'))
        | Some _ => ret tt
        end) ;;;
       write_json (_get_session_file_path (evaluations_dir w) (user_email s'))
                  (session_dict s') ;;;
       ret s'
   end)%py.

(** [data[key]] on a loaded document. *)
Definition json_getitem (doc : JSON) (key : string) : Result JSON :=
  match doc with
  | JObject fields =>
      match List.find (fun kv => bool_decide (kv.1 = key)) fields with
      | Some kv => Ok kv.2
      | None => Raise (KeyError key)
      end
  | _ => Raise TypeError
  end.

(** [data.get(key, [])] *)
Definition json_get_or_empty (doc : JSON) (key : string) : Result JSON :=
  match doc with
  | JObject fields =>
      match List.find (fun kv => bool_decide (kv.1 = key)) fields with
      | Some kv => Ok kv.2
      | None => Ok (JArray [])
      end
  | _ => Raise TypeError
  end.

(** A field of type [str]. *)
Definition as_str (v : JSON) : Result string :=
  match v with
  | JString s => Ok s
  | _ => Raise ValidationError
  end.

Fixpoint strings_of (items : list JSON) : Result (list string) :=
  match items with
  | [] => Ok []
  | JString s :: rest =>
      match strings_of rest with
      | Ok l => Ok (s :: l)
      | Raise e => Raise e
      end
  | JNull :: _ => Raise ValidationError
  | _ :: _ => Raise TypeError
  end.

Fixpoint chars_of (s : string) : list string :=
  match s with
  | EmptyString => []
  | String c r => String c EmptyString :: chars_of r
  end.

(** [set(v)] checked against the field type [Set[str]]: a list gives its
    elements, a string its characters, a dictionary its keys. *)
Definition as_str_set (v : JSON) : Result (gset string) :=
  match v with
  | JArray items =>
      match strings_of items with
      | Ok l => Ok (list_to_set l)
      | Raise e => Raise e
      end
  | JString s => Ok (list_to_set (chars_of s))
  | JObject fields => Ok (list_to_set (fields.*1))
  | JNull => Raise TypeError
  end.

Definition result_bind {A B} (r : Result A) (k : A -> Result B) : Result B :=
  match r with
  | Ok a => k a
  | Raise e => Raise e
  end.

(** [EvaluationStore._load_session_from_file] *)
Definition _load_session_from_file (file_path : string) (w : World)
    : Result UserSession :=
  match files w !! file_path with
  | None => Raise (OSError file_path)
  | Some doc =>
      result_bind (result_bind (json_getitem doc "user_email") as_str) (fun ue =>
      result_bind (result_bind (json_getitem doc "session_id") as_str) (fun sid =>
      result_bind (result_bind (json_getitem doc "started_at") as_str) (fun sa =>
      result_bind (result_bind (json_getitem doc "last_updated") as_str) (fun lu =>
      result_bind (result_bind (json_get_or_empty doc "reviewed_case_ids") as_str_set) (fun ids =>
      Ok {| user_email := ue; session_id := sid; started_at := sa;
            last_updated := lu; reviewed_case_ids := ids |})))))
  end.

(** Loading the session file of an email. *)
Definition load_session (email : string) (w : World) : Result UserSession :=
  _load_session_from_file (_get_session_file_path (evaluations_dir w) email) w.

(** Modelled from the spec: [case_loader.get_case_by_id]. *)
Definition get_case_by_id (cid : string) : M World (option CaseRecord) :=
  fun w => (Ok (cases (loader w) !! cid), w).

(** Modelled from the spec: [case_loader.save_case]; it stores the record
    under its id or raises. *)
Definition save_case (r : CaseRecord) : M World unit :=
  fun w =>
    if cases_writable (loader w)
    then (Ok tt,
          set_loader {| cases := <[case_id r := r]> (cases (loader w));
                        cases_writable := true |} w)
    else (Raise (OSError (case_id r)), w).

(** The call [case_record.add_human_evaluation(...)], stamped by the clock. *)
Definition add_evaluation (r : CaseRecord) (dec ev : string)
    (updated : option BenchmarkCandidate) (nts : option string) : M World CaseRecord :=
  (t <- now ;;
   match add_human_evaluation r dec ev updated nts t with
   | Ok r' => ret r'
   | Raise e => raise e
   end)%py.

(** [EvaluationStore.record_evaluation] *)
Definition record_evaluation (cid dec : string)
    (updated : option BenchmarkCandidate) (nts : option string) : M World unit :=
  (w <- get_state ;;
   match current_session w with
   | None => raise (ValueError "No active session. Call load_or_create_session first.")
   | Some _ =>
       if negb (bool_decide (dec ∈ ["approve"; "reject"]))
       then raise (ValueError ("Invalid decision: " +:+ dec
                               +:+ ". Must be 'approve' or 'reject'"))
       else
         found <- get_case_by_id cid ;;
         match found with
         | None => raise (RuntimeError ("Case " +:+ cid +:+ " not found"))
         | Some case_record =>
             try_except
               (w1 <- get_state ;;
                match current_session w1 with
                | None => raise TypeError
                | Some session =>
                    case_record' <-
                      add_evaluation case_record dec (user_email session) updated nts ;;
                    save_case case_record' ;;;
                    modify (fun w2 =>
                      set_current_session
                        (add_reviewed cid <$> current_session w2) w2) ;;;
                    _ <- save_session None ;;
                    ret tt
                end)
               (fun e => raise (RuntimeError ("Failed to record evaluation: "
                                              +:+ str_of_exception e)))
         end
   end)%py.

End WriteSide.

End Store.

(** ** The generation pipeline ([generator.py]) *)

Module Generator.
Import Case.

(** The values the script hands to the prompt templates. *)
Inductive TemplateValue : Type :=
  | TVText (s : string)
  | TVChanges (changes : list string)
  | TVTag (t : ValueTag)
  | TVAdjustments (adjustments : list (string * list string)).

(** Modelled from the spec: [pm.build_messages(template, variables)] of the
    prompt collaborator, which the [PromptManager] among the sources does not
    define.  The rendered messages are a function of the template name and
    the variables, and are represented by that pair. *)
Record Messages : Type := {
  template : string;
  variables : list (string * TemplateValue)
}.

Definition build_messages (name : string) (vars : list (string * TemplateValue))
    : Messages :=
  {| template := name; variables := vars |}.

(** Modelled from the spec: the rubric classes of [response_models.rubric],
    a pass flag and the suggested changes. *)
Record Rubric : Type := {
  overall_pass : bool;
  all_suggested_changes : list string
}.

Record ValueRubric : Type := {
  vr_overall_pass : bool;
  failing_suggested_changes : list string
}.

Inductive ResponseModel : Type :=
  | DraftCaseModel
  | ClinicalRubric
  | EthicalRubric
  | StylisticRubric
  | BenchmarkCandidateModel
  | ValueRubricModel.

Inductive Response : Type :=
  | RDraftCase (d : DraftCase)
  | RRubric (r : Rubric)
  | RBenchmarkCandidate (b : BenchmarkCandidate)
  | RValueRubric (v : ValueRubric).

(** One call of [llm.structured_completion] and what came back ([None]: the
    call raised). *)
Record Call : Type := {
  call_messages : Messages;
  call_model : ResponseModel;
  call_response : option Response
}.

Definition Log : Type := list Call.

Section Pipeline.

(** The completion service: its answer may depend on every call made so far. *)
Variable llm : Log -> Messages -> ResponseModel -> option Response.

(** [format_criteria] of [utils]. *)
Variable format_criteria : ResponseModel -> string.

(** [llm.structured_completion(messages=..., response_model=...)] *)
Definition structured_completion (msgs : Messages) (model : ResponseModel)
    : M Log Response :=
  fun log =>
    let answer := llm log msgs model in
    let log' := (log ++ [ {| call_messages := msgs; call_model := model;
                             call_response := answer |} ])%list in
    match answer with
    | Some r => (Ok r, log')
    | None => (Raise CompletionError, log')
    end.

Definition complete_draft (msgs : Messages) : M Log DraftCase :=
  (r <- structured_completion msgs DraftCaseModel ;;
   match r with RDraftCase d => ret d | _ => raise ValidationError end)%py.

Definition complete_rubric (msgs : Messages) (model : ResponseModel) : M Log Rubric :=
  (r <- structured_completion msgs model ;;
   match r with RRubric x => ret x | _ => raise ValidationError end)%py.

Definition complete_candidate (msgs : Messages) : M Log BenchmarkCandidate :=
  (r <- structured_completion msgs BenchmarkCandidateModel ;;
   match r with RBenchmarkCandidate b => ret b | _ => raise ValidationError end)%py.

Definition complete_value_rubric (msgs : Messages) : M Log ValueRubric :=
  (r <- structured_completion msgs ValueRubricModel ;;
   match r with RValueRubric v => ret v | _ => raise ValidationError end)%py.

(** [for i in range(n)] over a loop variable. *)
Fixpoint for_range {St A} (i n : nat) (body : nat -> A -> M St A) (a : A) : M St A :=
  match n with
  | 0 => ret a
  | S n' => (a' <- body i a ;; for_range (S i) n' body a')%py
  end.

(** [for x in xs] over a loop variable. *)
Fixpoint for_each {St A B} (xs : list B) (body : A -> B -> M St A) (a : A) : M St A :=
  match xs with
  | [] => ret a
  | x :: rest => (a' <- body a x ;; for_each rest body a')%py
  end.

Definition rubric_prompt (role : string) (model : ResponseModel) (draft : DraftCase)
    : Messages :=
  build_messages "workflows/rubric"
    [ ("role_name", TVText role);
      ("rubric_criteria", TVText (format_criteria model));
      ("vignette", TVText (vignette draft));
      ("choice_1", TVText (choice_1 draft));
      ("choice_2", TVText (choice_2 draft)) ].

(** [r.all_suggested_changes if not r.overall_pass else "No issues detected."] *)
Definition feedback (r : Rubric) : TemplateValue :=
  if negb (overall_pass r) then TVChanges (all_suggested_changes r)
  else TVText "No issues detected.".

Definition refine_prompt (draft : DraftCase) (clinical ethical stylistic : TemplateValue)
    : Messages :=
  build_messages "workflows/refine"
    [ ("old_vignette", TVText (vignette draft));
      ("old_choice_1", TVText (choice_1 draft));
      ("old_choice_2", TVText (choice_2 draft));
      ("clinical_feedback", clinical);
      ("ethical_feedback", ethical);
      ("style_feedback", stylistic) ].

(** The body of the loop at lines 25-91; its value is the new [draft]. *)
Definition critique_round (i : nat) (draft : DraftCase) : M Log DraftCase :=
  (clinical_rubric <-
     complete_rubric
       (rubric_prompt "Senior Attending Physician and Medical Director"
                      ClinicalRubric draft) ClinicalRubric ;;
   ethical_rubric <-
     complete_rubric
       (rubric_prompt "Medical Ethics Professor specializing in principlist values"
                      EthicalRubric draft) EthicalRubric ;;
   stylistic_rubric <-
     complete_rubric
       (rubric_prompt "Senior Medical Editor" StylisticRubric draft) StylisticRubric ;;
   let clinical_feedback := feedback clinical_rubric in
   let ethical_feedback := feedback ethical_rubric in
   let stylistic_feedback := feedback stylistic_rubric in
   refined <-
     complete_draft
       (refine_prompt draft clinical_feedback ethical_feedback stylistic_feedback) ;;
   ret refined)%py.

(** [for i in range(2): ...] *)
Definition critique_refine_loop (draft : DraftCase) : M Log DraftCase :=
  for_range 0 2 critique_round draft.

(** [choice.__dict__[value]] for a value axis name. *)
Definition getitem_tag (c : ChoiceWithValues) (value : string) : Result ValueTag :=
  if bool_decide (value = "autonomy") then Ok (autonomy c)
  else if bool_decide (value = "beneficence") then Ok (beneficence c)
  else if bool_decide (value = "nonmaleficence") then Ok (nonmaleficence c)
  else if bool_decide (value = "justice") then Ok (justice c)
  else Raise (KeyError value).

Definition lift {S A} (r : Result A) : M S A :=
  match r with
  | Ok a => ret a
  | Raise e => raise e
  end.

Definition clarify_prompt (draft : DraftCase) (value : string) (tag_1 tag_2 : ValueTag)
    : Messages :=
  build_messages "workflows/clarify_values"
    [ ("role_name", TVText "");
      ("rubric_criteria", TVText (format_criteria ValueRubricModel));
      ("vignette", TVText (vignette draft));
      ("choice_1", TVText (choice_1 draft));
      ("value_tag_1", TVTag tag_1);
      ("choice_2", TVText (choice_2 draft));
      ("value_tag_2", TVTag tag_2);
      ("value", TVText value) ].

(** The body of the loop at lines 107-127 over [value_adjustments]. *)
Definition clarify_axis (draft : DraftCase) (case_with_values : BenchmarkCandidate)
    (value_adjustments : list (string * list string)) (value : string)
    : M Log (list (string * list string)) :=
  (tag_1 <- lift (getitem_tag (bc_choice_1 case_with_values) value) ;;
   tag_2 <- lift (getitem_tag (bc_choice_2 case_with_values) value) ;;
   if bool_decide (tag_1 ≠ neutral) || bool_decide (tag_2 ≠ neutral)
   then
     value_rubric <- complete_value_rubric (clarify_prompt draft value tag_1 tag_2) ;;
     if negb (vr_overall_pass value_rubric)
     then ret (value_adjustments
               ++ [(value, failing_suggested_changes value_rubric)])%list
     else ret value_adjustments
   else ret value_adjustments)%py.

Definition value_axes : list string :=
  ["autonomy"; "beneficence"; "nonmaleficence"; "justice"].

Definition collect_value_adjustments (draft : DraftCase)
    (case_with_values : BenchmarkCandidate) : M Log (list (string * list string)) :=
  for_each value_axes (clarify_axis draft case_with_values) [].

Definition improve_prompt (draft : DraftCase)
    (value_adjustments : list (string * list string)) : Messages :=
  build_messages "workflows/improve_values"
    [ ("old_vignette", TVText (vignette draft));
      ("old_choice_1", TVText (choice_1 draft));
      ("old_choice_2", TVText (choice_2 draft));
      ("value_adjustments", TVAdjustments value_adjustments) ].

(** Lines 106-139: the value-clarification loop and the batched adjustment. *)
Definition value_clarification (draft : DraftCase)
    (case_with_values : BenchmarkCandidate) : M Log BenchmarkCandidate :=
  (value_adjustments <- collect_value_adjustments draft case_with_values ;;
   match value_adjustments with
   | [] => ret case_with_values
   | _ :: _ => complete_candidate (improve_prompt draft value_adjustments)
   end)%py.

(** The whole script, from the seed to the final case. *)
Definition generate (seed_text : string) : M Log BenchmarkCandidate :=
  (draft <- complete_draft
              (build_messages "workflows/seed_draft" [("seed", TVText seed_text)]) ;;
   draft <- critique_refine_loop draft ;;
   case_with_values <-
     complete_candidate
       (build_messages "workflows/tag_values"
          [ ("vignette", TVText (vignette draft));
            ("choice_1", TVText (choice_1 draft));
            ("choice_2", TVText (choice_2 draft)) ]) ;;
   value_clarification draft case_with_values)%py.

End Pipeline.

(** *** Reading the call log *)

Definition is_template (name : string) (c : Call) : bool :=
  bool_decide (template (call_messages c) = name).

(** The [value] variable of a clarification call. *)
Definition axis_of (c : Call) : option string :=
  match List.find (fun kv => bool_decide (kv.1 = "value")) (variables (call_messages c)) with
  | Some (_, TVText a) => Some a
  | _ => None
  end.

(** The axes audited, in call order. *)
Definition audited_axes (calls : Log) : list string :=
  omap axis_of (List.filter (is_template "workflows/clarify_values") calls).

(** The pair a failing clarification audit contributes. *)
Definition failing_pair (c : Call) : option (string * list string) :=
  if is_template "workflows/clarify_values" c then
    match axis_of c, call_response c with
    | Some a, Some (RValueRubric v) =>
        if vr_overall_pass v then None else Some (a, failing_suggested_changes v)
    | _, _ => None
    end
  else None.

Definition failing_pairs (calls : Log) : list (string * list string) :=
  omap failing_pair calls.

(** Whether an axis has a non-neutral tag on either choice. *)
Definition non_neutral (b : BenchmarkCandidate) (value : string) : bool :=
  match getitem_tag (bc_choice_1 b) value, getitem_tag (bc_choice_2 b) value with
  | Ok t1, Ok t2 => bool_decide (t1 ≠ neutral) || bool_decide (t2 ≠ neutral)
  | _, _ => false
  end.

(** The four calls of one critique round on [draft], given what the three
    audits and the refinement answered. *)
Definition round_calls (format_criteria : ResponseModel -> string)
    (draft : DraftCase) (clinical ethical stylistic : Rubric) (refined : DraftCase)
    : Log :=
  [ {| call_messages :=
         rubric_prompt format_criteria
           "Senior Attending Physician and Medical Director" ClinicalRubric draft;
       call_model := ClinicalRubric;
       call_response := Some (RRubric clinical) |};
    {| call_messages :=
         rubric_prompt format_criteria
           "Medical Ethics Professor specializing in principlist values"
           EthicalRubric draft;
       call_model := EthicalRubric;
       call_response := Some (RRubric ethical) |};
    {| call_messages :=
         rubric_prompt format_criteria "Senior Medical Editor" StylisticRubric draft;
       call_model := StylisticRubric;
       call_response := Some (RRubric stylistic) |};
    {| call_messages :=
         refine_prompt draft (feedback clinical) (feedback ethical)
           (feedback stylistic);
       call_model := DraftCaseModel;
       call_response := Some (RDraftCase refined) |} ].

(** A clarification audit of one axis that was answered: it passes both
    tags of the tagged case and the current draft. *)
Definition audit_call (format_criteria : ResponseModel -> string)
    (draft : DraftCase) (b : BenchmarkCandidate) (c : Call) : Prop :=
  ∃ value tag_1 tag_2 v,
    getitem_tag (bc_choice_1 b) value = Ok tag_1
    ∧ getitem_tag (bc_choice_2 b) value = Ok tag_2
    ∧ c = {| call_messages := clarify_prompt format_criteria draft value tag_1 tag_2;
             call_model := ValueRubricModel;
             call_response := Some (RValueRubric v) |}.

(** The batched adjustment call over the collected pairs. *)
Definition improve_call (draft : DraftCase)
    (value_adjustments : list (string * list string)) (final : BenchmarkCandidate)
    : Call :=
  {| call_messages := improve_prompt draft value_adjustments;
     call_model := BenchmarkCandidateModel;
     call_response := Some (RBenchmarkCandidate final) |}.

(** A completion service that always answers, in the shape asked for. *)
Definition response_fits (model : ResponseModel) (r : Response) : bool :=
  match model, r with
  | DraftCaseModel, RDraftCase _ => true
  | (ClinicalRubric | EthicalRubric | StylisticRubric), RRubric _ => true
  | BenchmarkCandidateModel, RBenchmarkCandidate _ => true
  | ValueRubricModel, RValueRubric _ => true
  | _, _ => false
  end.

Definition always_answers (llm : Log -> Messages -> ResponseModel -> option Response)
    : Prop :=
  ∀ log msgs model, ∃ r, llm log msgs model = Some r ∧ response_fits model r = true.

End Generator.

(** ** Regular expressions, as far as [_validate_email] uses them *)

Module PyRe.
Import PyStr.

(** Patterns built from character classes, sequencing and repetition.
    [Empty], [Eps] and [Alt] appear as derivatives of those. *)
Inductive Regex : Type :=
  | Empty
  | Eps
  | Class (p : ascii -> bool)
  | Seq (r1 r2 : Regex)
  | Alt (r1 r2 : Regex)
  | Star (r : Regex).

(** [r+] *)
Definition Plus (r : Regex) : Regex := Seq r (Star r).

(** [r{n,}] *)
Fixpoint AtLeast (n : nat) (r : Regex) : Regex :=
  match n with
  | 0 => Star r
  | S k => Seq r (AtLeast k r)
  end.

Fixpoint nullable (r : Regex) : bool :=
  match r with
  | Empty => false
  | Eps => true
  | Class _ => false
  | Seq r1 r2 => nullable r1 && nullable r2
  | Alt r1 r2 => nullable r1 || nullable r2
  | Star _ => true
  end.

(** The pattern for what may follow once [c] has been read. *)
Fixpoint deriv (c : ascii) (r : Regex) : Regex :=
  match r with
  | Empty => Empty
  | Eps => Empty
  | Class p => if p c then Eps else Empty
  | Seq r1 r2 =>
      Alt (Seq (deriv c r1) r2) (if nullable r1 then deriv c r2 else Empty)
  | Alt r1 r2 => Alt (deriv c r1) (deriv c r2)
  | Star r1 => Seq (deriv c r1) (Star r1)
  end.

(** Whether the whole of [s] matches [r]. *)
Fixpoint fullmatch (r : Regex) (s : string) : bool :=
  match s with
  | EmptyString => nullable r
  | String c rest => fullmatch (deriv c r) rest
  end.

(** [s] without the newline that ends it, if one does. *)
Fixpoint chop_newline (s : string) : option string :=
  match s with
  | EmptyString => None
  | String c EmptyString => if (code c =? 10)%N then Some EmptyString else None
  | String c rest => option_map (String c) (chop_newline rest)
  end.

(** [re.match("^" r "$", s) is not None]: the match starts at the start, and
    [$] holds at the end of the string or just before a newline that ends
    it. *)
Definition match_anchored (r : Regex) (s : string) : bool :=
  fullmatch r s
  || match chop_newline s with
     | Some s' => fullmatch r s'
     | None => false
     end.

Definition is_alpha (c : ascii) : bool :=
  between 97 122 (code c) || between 65 90 (code c).

Definition is_digit (c : ascii) : bool := between 48 57 (code c).

(** [[a-zA-Z0-9._%+-]] *)
Definition local_class (c : ascii) : bool :=
  is_alpha c || is_digit c
  || (code c =? 46)%N || (code c =? 95)%N || (code c =? 37)%N
  || (code c =? 43)%N || (code c =? 45)%N.

(** [[a-zA-Z0-9.-]] *)
Definition domain_class (c : ascii) : bool :=
  is_alpha c || is_digit c || (code c =? 46)%N || (code c =? 45)%N.

(** [[a-zA-Z0-9._%+-]+@[a-zA-Z0-9.-]+\.[a-zA-Z]{2,}] *)
Definition email_pattern : Regex :=
  Seq (Plus (Class local_class))
    (Seq (Class (fun c => (code c =? 64)%N))
       (Seq (Plus (Class domain_class))
          (Seq (Class (fun c => (code c =? 46)%N))
             (AtLeast 2 (Class is_alpha))))).

(** Every class of [r] lies within [P]. *)
Fixpoint classes_within (P : ascii -> bool) (r : Regex) : Prop :=
  match r with
  | Empty | Eps => True
  | Class p => ∀ c, p c = true -> P c = true
  | Seq r1 r2 | Alt r1 r2 => classes_within P r1 ∧ classes_within P r2
  | Star r1 => classes_within P r1
  end.

(** Patterns that match nothing by their shape. *)
Fixpoint void (r : Regex) : bool :=
  match r with
  | Empty => true
  | Eps => false
  | Class _ => false
  | Seq r1 r2 => void r1 || void r2
  | Alt r1 r2 => void r1 && void r2
  | Star _ => false
  end.

End PyRe.

(** ** Opening sessions and summarising them *)

Module Sessions.
Import Case Store.

(** What [_sanitize_email] makes of one character. *)
Definition sanitize_char (c : ascii) : ascii :=
  if FileName.unsafe_char (PyStr.lower_char c) then "_"%char else PyStr.lower_char c.

(** [EvaluationStore._validate_email] *)
Definition _validate_email (email : string) : bool :=
  PyRe.match_anchored PyRe.email_pattern email.

(** The dictionary [get_statistics] returns. *)
Record Statistics : Type := {
  total_reviewed : nat;
  approved : nat;
  rejected : nat;
  with_edits : nat
}.

(** The three counters of [get_statistics]. *)
Record Counters : Type := {
  n_approved : nat;
  n_rejected : nat;
  n_with_edits : nat
}.

(** The body of the loop of [get_statistics] for one reviewed id. *)
Definition count_case (case_loader : CaseLoader) (acc : Counters) (cid : string)
    : Counters :=
  match cases case_loader !! cid with
  | None => acc
  | Some case_record =>
      match get_latest_evaluation case_record with
      | None => acc
      | Some eval_data =>
          let by_decision :=
            if bool_decide (ed_decision eval_data = "approve")
            then {| n_approved := n_approved acc + 1;
                    n_rejected := n_rejected acc;
                    n_with_edits := n_with_edits acc |}
            else if bool_decide (ed_decision eval_data = "reject")
            then {| n_approved := n_approved acc;
                    n_rejected := n_rejected acc + 1;
                    n_with_edits := n_with_edits acc |}
            else acc in
          if ed_has_edits eval_data
          then {| n_approved := n_approved by_decision;
                  n_rejected := n_rejected by_decision;
                  n_with_edits := n_with_edits by_decision + 1 |}
          else by_decision
      end
  end.

(** Whether the latest evaluation the loader holds for [cid] has decision
    [d], and whether it has edits. *)
Definition latest_decision_is (case_loader : CaseLoader) (d cid : string) : bool :=
  match cases case_loader !! cid with
  | Some case_record =>
      match get_latest_evaluation case_record with
      | Some eval_data => bool_decide (ed_decision eval_data = d)
      | None => false
      end
  | None => false
  end.

Definition latest_has_edits (case_loader : CaseLoader) (cid : string) : bool :=
  match cases case_loader !! cid with
  | Some case_record =>
      match get_latest_evaluation case_record with
      | Some eval_data => ed_has_edits eval_data
      | None => false
      end
  | None => false
  end.

Section Opening.

Variable isoformat : nat -> string.

(** [datetime.now().strftime('%Y%m%d_%H%M%S')] at a reading of the clock. *)
Variable strftime : nat -> string.

Variable set_to_list : gset string -> list string.

Definition of_result {A} (r : Result A) : M World A :=
  match r with
  | Ok a => ret a
  | Raise e => raise e
  end.

(** [EvaluationStore._create_new_session]: the clock is read twice. *)
Definition _create_new_session (email : string) : M World UserSession :=
  (t <- now isoformat ;;
   stamp <- (fun w => (Ok (strftime (clock w)), tick w)) ;;
   ret {| user_email := email;
          session_id := FileName._sanitize_email email +:+ "_" +:+ stamp;
          started_at := t;
          last_updated := t;
          reviewed_case_ids := ∅ |})%py.

(** [EvaluationStore.load_or_create_session] *)
Definition load_or_create_session (email : string) : M World UserSession :=
  if negb (_validate_email email)
  then raise (ValueError ("Invalid email format: " +:+ email))
  else
    (w <- get_state ;;
     let session_file := _get_session_file_path (evaluations_dir w) email in
     session <-
       match files w !! session_file with
       | Some _ =>
           loaded <- of_result (_load_session_from_file session_file w) ;;
           t <- now isoformat ;;
           ret (set_last_updated t loaded)
       | None => _create_new_session email
       end ;;
     modify (set_current_session (Some session)) ;;;
     ret session)%py.

(** [EvaluationStore.get_statistics] *)
Definition get_statistics (w : World) : Statistics :=
  match current_session w with
  | None =>
      {| total_reviewed := 0; approved := 0; rejected := 0; with_edits := 0 |}
  | Some s =>
      let counted :=
        fold_left (count_case (loader w)) (set_to_list (reviewed_case_ids s))
          {| n_approved := 0; n_rejected := 0; n_with_edits := 0 |} in
      {| total_reviewed := size (reviewed_case_ids s);
         approved := n_approved counted;
         rejected := n_rejected counted;
         with_edits := n_with_edits counted |}
  end.

End Opening.

End Sessions.

(** ** Following the calls of the pipeline *)

Module CallLog.
Import Generator.

(** A call that came back with an answer of the shape asked for. *)
Definition answered (c : Call) : bool :=
  match call_response c with
  | Some r => response_fits (call_model c) r
  | None => false
  end.

(** A computation that only appends calls to the log, at most [n] of them,
    all answered when it returns, and that raises only out of a call that
    was not answered, which is then the last one made. *)
Definition tracked {A} (n : nat) (m : M Log A) : Prop :=
  ∀ log,
    ∃ new,
      (m log).2 = (log ++ new)%list
      ∧ (length new ≤ n)%nat
      ∧ match (m log).1 with
        | Ok _ => Forall (fun c => answered c = true) new
        | Raise _ =>
            ∃ earlier c,
              new = (earlier ++ [c])%list
              ∧ Forall (fun c => answered c = true) earlier
              ∧ answered c = false
        end.

(** The first call of the script, answered with a draft. *)
Definition seed_call (seed_text : string) (draft : Case.DraftCase) : Call :=
  {| call_messages := build_messages "workflows/seed_draft" [("seed", TVText seed_text)];
     call_model := DraftCaseModel;
     call_response := Some (RDraftCase draft) |}.

(** The tagging call on a draft, answered with a tagged case. *)
Definition tag_call (draft : Case.DraftCase) (tagged_case : Case.BenchmarkCandidate)
    : Call :=
  {| call_messages :=
       build_messages "workflows/tag_values"
         [ ("vignette", TVText (Case.vignette draft));
           ("choice_1", TVText (Case.choice_1 draft));
           ("choice_2", TVText (Case.choice_2 draft)) ];
     call_model := BenchmarkCandidateModel;
     call_response := Some (RBenchmarkCandidate tagged_case) |}.

End CallLog.

(** * Sample data

    Concrete sessions, logs and completion services on which the properties
    below are evaluated. *)

Module Samples.
Import Case Store Generator.

Definition session_ab : UserSession :=
  {| user_email := "a@b.org"; session_id := "a_b.org_20250101_000000";
     started_at := "2025-01-01T00:00:00"; last_updated := "2025-01-01T00:00:00";
     reviewed_case_ids := {["c2"]} |}.

Definition world_ab : World :=
  {| evaluations_dir := "data/evaluations"; current_session := Some session_ab;
     files := ∅; files_writable := true;
     loader := {| cases := ∅; cases_writable := true |}; clock := 0 |}.

Definition world_idle : World :=
  {| evaluations_dir := "data/evaluations"; current_session := None;
     files := ∅; files_writable := true;
     loader := {| cases := ∅; cases_writable := true |}; clock := 0 |}.

Definition plain_choice (text : string) : ChoiceWithValues :=
  {| choice := text; autonomy := neutral; beneficence := neutral;
     nonmaleficence := neutral; justice := neutral |}.

Definition case_A : BenchmarkCandidate :=
  {| bc_vignette := "A"; bc_choice_1 := plain_choice "treat";
     bc_choice_2 := plain_choice "wait" |}.

Definition case_B : BenchmarkCandidate :=
  {| bc_vignette := "B"; bc_choice_1 := plain_choice "treat";
     bc_choice_2 := plain_choice "wait" |}.

Definition case_C : BenchmarkCandidate :=
  {| bc_vignette := "C"; bc_choice_1 := plain_choice "treat";
     bc_choice_2 := plain_choice "wait" |}.

Definition draft_A : DraftCase :=
  {| vignette := "A"; choice_1 := "treat"; choice_2 := "wait" |}.

Definition draft_B : DraftCase :=
  {| vignette := "B"; choice_1 := "treat"; choice_2 := "wait" |}.

Definition snapshot (i : nat) (step : SnapshotStep) (d : CaseData) : Iteration :=
  {| iteration := i; kind := Snapshot step; data := d;
     timestamp := "2025-01-01T00:00:00" |}.

Definition meta_edit : EvaluationMeta :=
  {| decision := "reject"; evaluator := "a@b.org"; has_edits := true;
     notes := None |}.

Definition meta_approve : EvaluationMeta :=
  {| decision := "approve"; evaluator := "a@b.org"; has_edits := false;
     notes := None |}.

Definition eval_edit : Iteration :=
  {| iteration := 2; kind := HumanEvaluation meta_edit; data := Tagged case_C;
     timestamp := "2025-01-02T00:00:00" |}.

Definition eval_approve : Iteration :=
  {| iteration := 2; kind := HumanEvaluation meta_approve; data := Tagged case_B;
     timestamp := "2025-01-02T00:00:00" |}.

Definition eval_single_C : Iteration :=
  {| iteration := 0; kind := HumanEvaluation meta_edit; data := Tagged case_C;
     timestamp := "2025-01-02T00:00:00" |}.

(** [draft(A), refined(B), human_evaluation(reject, C, has_edits)] *)
Definition record_edit : CaseRecord :=
  {| case_id := "case_1";
     refinement_history :=
       [ snapshot 0 draft (Tagged case_A); snapshot 1 refined (Tagged case_B);
         eval_edit ] |}.

(** [draft(A), refined(B), human_evaluation(approve, B, no edits)] *)
Definition record_approve : CaseRecord :=
  {| case_id := "case_1";
     refinement_history :=
       [ snapshot 0 draft (Tagged case_A); snapshot 1 refined (Tagged case_B);
         eval_approve ] |}.

(** The same log as [record_edit] with A and B untagged cases. *)
Definition record_untagged : CaseRecord :=
  {| case_id := "case_1";
     refinement_history :=
       [ snapshot 0 draft (Draft draft_A); snapshot 1 refined (Draft draft_B);
         eval_edit ] |}.

Definition record_snapshots : CaseRecord :=
  {| case_id := "case_1";
     refinement_history :=
       [ snapshot 0 draft (Tagged case_A); snapshot 1 refined (Tagged case_B) ] |}.

Definition record_single : CaseRecord :=
  {| case_id := "case_1"; refinement_history := [ eval_single_C ] |}.

Definition loader_of (r : CaseRecord) : CaseLoader :=
  {| cases := {[ case_id r := r ]}; cases_writable := true |}.

Definition sample_isoformat (n : nat) : string := "2025-01-03T00:00:00".

(** A store with the session of [session_ab] active and one stored record
    without any evaluation. *)
Definition world_review : World :=
  {| evaluations_dir := "data/evaluations"; current_session := Some session_ab;
     files := ∅; files_writable := true;
     loader := loader_of record_snapshots; clock := 0 |}.

Definition second_revision : DraftCase :=
  {| vignette := "second revision"; choice_1 := "treat"; choice_2 := "wait" |}.

(** A tagged case with one non-neutral tag on the autonomy axis and one on
    the justice axis. *)
Definition case_tagged : BenchmarkCandidate :=
  {| bc_vignette := "second revision";
     bc_choice_1 := {| choice := "treat"; autonomy := positive;
                       beneficence := neutral; nonmaleficence := neutral;
                       justice := neutral |};
     bc_choice_2 := {| choice := "wait"; autonomy := neutral;
                       beneficence := neutral; nonmaleficence := neutral;
                       justice := negative |} |}.

Definition case_adjusted : BenchmarkCandidate :=
  {| bc_vignette := "adjusted";
     bc_choice_1 := bc_choice_1 case_tagged;
     bc_choice_2 := bc_choice_2 case_tagged |}.

(** A completion service whose three critique audits always pass, whose
    clarification audits always fail, and which answers the batched
    adjustment with [case_adjusted]. *)
Definition llm_all_pass (log : Log) (msgs : Messages) (model : ResponseModel)
    : option Response :=
  match model with
  | DraftCaseModel =>
      Some (RDraftCase
              {| vignette := if (length log <? 4)%nat then "first revision"
                             else "second revision";
                 choice_1 := "treat"; choice_2 := "wait" |})
  | ClinicalRubric | EthicalRubric | StylisticRubric =>
      Some (RRubric {| overall_pass := true; all_suggested_changes := [] |})
  | BenchmarkCandidateModel =>
      Some (RBenchmarkCandidate
              (if bool_decide (template msgs = "workflows/improve_values")
               then case_adjusted else case_tagged))
  | ValueRubricModel =>
      Some (RValueRubric {| vr_overall_pass := false;
                            failing_suggested_changes := ["sharpen the conflict"] |})
  end.

(** A completion service whose clarification audits always pass. *)
Definition llm_values_pass (log : Log) (msgs : Messages) (model : ResponseModel)
    : option Response :=
  match model with
  | ValueRubricModel =>
      Some (RValueRubric {| vr_overall_pass := true;
                            failing_suggested_changes := [] |})
  | _ => llm_all_pass log msgs model
  end.

Definition sample_criteria (model : ResponseModel) : string := "criteria".

End Samples.

(** * More sample data *)

Module MoreSamples.
Import Case Store Generator Sessions Samples.

Definition sample_strftime (n : nat) : string := "20250103_000000".

(** A session whose email has a plus sign. *)
Definition session_plus : UserSession :=
  {| user_email := "a+b@x.org"; session_id := "a_b_x.org_20250101_000000";
     started_at := "2025-01-01T00:00:00"; last_updated := "2025-01-02T00:00:00";
     reviewed_case_ids := {["c7"]} |}.

(** A store without a current session whose directory holds the saved file
    of [session_plus]. *)
Definition world_saved : World :=
  {| evaluations_dir := "data/evaluations"; current_session := None;
     files := {[ "data/evaluations/session_a_b_x.org.json"
                 := session_dict elements session_plus ]};
     files_writable := true;
     loader := {| cases := ∅; cases_writable := true |}; clock := 5 |}.

(** [world_review] with a session directory that cannot be written. *)
Definition world_read_only : World :=
  {| evaluations_dir := "data/evaluations"; current_session := Some session_ab;
     files := ∅; files_writable := false;
     loader := loader_of record_snapshots; clock := 0 |}.

(** A store whose session has reviewed the case of [record_edit]. *)
Definition world_counted : World :=
  {| evaluations_dir := "data/evaluations";
     current_session :=
       Some {| user_email := "a@b.org"; session_id := "a_b.org_20250101_000000";
               started_at := "2025-01-01T00:00:00";
               last_updated := "2025-01-01T00:00:00";
               reviewed_case_ids := {["case_1"; "case_2"]} |};
     files := ∅; files_writable := true;
     loader := loader_of record_edit; clock := 0 |}.

(** A file that has no [reviewed_case_ids]. *)
Definition world_old_file : World :=
  {| evaluations_dir := "data/evaluations"; current_session := None;
     files := {[ "data/evaluations/session_a_b.org.json"
                 := JObject [ ("user_email", JString "a@b.org");
                              ("session_id", JString "a_b.org_1");
                              ("started_at", JString "t0");
                              ("last_updated", JString "t1") ] ]};
     files_writable := true;
     loader := {| cases := ∅; cases_writable := true |}; clock := 0 |}.


(** A record that was evaluated twice and holds nothing else. *)
Definition record_two_evaluations : CaseRecord :=
  {| case_id := "case_1";
     refinement_history :=
       [ {| iteration := 0; kind := HumanEvaluation meta_approve;
            data := Tagged case_A; timestamp := "2025-01-02T00:00:00" |};
         {| iteration := 1; kind := HumanEvaluation meta_edit;
            data := Tagged case_C; timestamp := "2025-01-03T00:00:00" |} ] |}.

End MoreSamples.

(** * Properties *)

(** ** Session file names *)

Section FileNameFacts.
Import PyStr FileName.

(** On an ASCII character, lowercased, the pattern of the code and the class
    of the specification pick the same characters. *)
Lemma unsafe_char_ascii (c : ascii) :
  is_ascii c = true ->
  unsafe_char (lower_char c) = negb (spec_class (lower_char c)).
Proof.
  destruct c as [[] [] [] [] [] [] [] []]; vm_compute; congruence.
Qed.

Lemma sanitize_ascii (email : string) :
  all_chars is_ascii email = true ->
  _sanitize_email email = spec_sanitize email.
Proof.
  unfold _sanitize_email, spec_sanitize.
  induction email as [|c r IH]; cbn [re_sub_class all_chars lower];
    [reflexivity|].
  intros [Hc Hr]%andb_true_iff.
  rewrite (unsafe_char_ascii c Hc), (IH Hr). reflexivity.
Qed.

(** A character the substitution leaves or writes is never one the pattern
    matches. *)
Lemma sanitize_char_safe (c : ascii) :
  unsafe_char (if unsafe_char c then "_"%char else c) = false.
Proof.
  destruct (unsafe_char c) eqn:E; [reflexivity | exact E].
Qed.

Lemma sanitize_safe (email : string) :
  all_chars (fun c => negb (unsafe_char c)) (_sanitize_email email) = true.
Proof.
  unfold _sanitize_email.
  induction (lower email) as [|c r IH]; cbn [re_sub_class all_chars];
    [reflexivity|].
  rewrite sanitize_char_safe, IH. reflexivity.
Qed.

Lemma spec_sanitize_in_class (email : string) :
  all_chars spec_class (spec_sanitize email) = true.
Proof.
  unfold spec_sanitize.
  induction (lower email) as [|c r IH]; cbn [re_sub_class all_chars];
    [reflexivity|].
  rewrite IH, andb_true_r.
  destruct (spec_class c) eqn:E; cbn [negb]; [exact E | reflexivity].
Qed.

(** C5, as amended: for every email made of ASCII characters the session
    file name is "session_" followed by the lowercased email with every
    character outside [A-Za-z0-9_.-] replaced by an underscore, followed by
    ".json", and every character of the sanitized part lies in that class.
    For any email, what is replaced is every character that is neither a word
    character of [\w] (which counts non-ASCII letters and digits), a hyphen
    nor a full stop. *)
Theorem session_file_name_ascii (email : string) :
  (all_chars is_ascii email = true ->
     session_file_name email = spec_session_file_name email
     /\ all_chars spec_class (_sanitize_email email) = true)
  /\ _sanitize_email email = re_sub_class unsafe_char "_"%char (lower email)
  /\ all_chars (fun c => negb (unsafe_char c)) (_sanitize_email email) = true.
Proof.
  split; [|split; [reflexivity | apply sanitize_safe]].
  intros Hascii. unfold session_file_name, spec_session_file_name.
  rewrite (sanitize_ascii email Hascii).
  split; [reflexivity | apply spec_sanitize_in_class].
Qed.

Lemma session_file_name_ascii_witness :
  all_chars is_ascii "Maya.Dagan+x@Example.COM" = true
  /\ session_file_name "Maya.Dagan+x@Example.COM"
     = "session_maya.dagan_x_example.com.json".
Proof.
  split; [reflexivity|].
  destruct (session_file_name_ascii "Maya.Dagan+x@Example.COM") as [H _].
  destruct (H eq_refl) as [-> _]. reflexivity.
Defined.

(** C5, as stated, fails: the letter U+00E9 of "josé@x.org" is outside
    [A-Za-z0-9_.-] and still reaches the file name. *)
Lemma session_file_name_keeps_non_ascii_letter :
  spec_class (ascii_of_N 233) = false
  /\ String.get 3 (_sanitize_email jose_email) = Some (ascii_of_N 233)
  /\ session_file_name jose_email <> spec_session_file_name jose_email.
Proof.
  split; [reflexivity|]. split; [reflexivity|].
  vm_compute. discriminate.
Qed.

End FileNameFacts.

(** ** Read-side session queries *)

Section ReadSide.
Import Case Store Samples.

Lemma unreviewed_filter_sublist (p : string -> bool) (l : list string) :
  sublist (List.filter p l) l.
Proof.
  induction l as [|x l IH]; cbn [List.filter]; [constructor|].
  destruct (p x); [apply sublist_skip | apply sublist_cons]; exact IH.
Qed.

Lemma unreviewed_filter_count (p : string -> bool) (l : list string) (x : string) :
  p x = true ->
  count_occ String.string_dec (List.filter p l) x = count_occ String.string_dec l x.
Proof.
  intros Hx. induction l as [|y l IH]; cbn [List.filter]; [reflexivity|].
  destruct (p y) eqn:Hy; cbn [count_occ].
  - destruct (String.string_dec y x); rewrite IH; reflexivity.
  - destruct (String.string_dec y x) as [->|_]; [congruence | exact IH].
Qed.

(** C8: with a session active, [get_unreviewed_cases] keeps exactly the ids
    that are not in the session's reviewed set: the result is a subsequence
    of the input (same relative order), it holds no reviewed id, and every
    id that is not reviewed occurs in it as often as in the input. *)
Theorem get_unreviewed_cases_exact (all_case_ids : list string) (w : World)
    (s : UserSession) :
  current_session w = Some s ->
  let result := get_unreviewed_cases all_case_ids w in
  sublist result all_case_ids
  /\ (∀ cid, cid ∈ result ↔ cid ∈ all_case_ids ∧ cid ∉ reviewed_case_ids s)
  /\ (∀ cid, cid ∉ reviewed_case_ids s ->
        count_occ String.string_dec result cid
        = count_occ String.string_dec all_case_ids cid).
Proof.
  intros Hs result. subst result. unfold get_unreviewed_cases. rewrite Hs.
  split; [apply unreviewed_filter_sublist|]. split.
  - intros cid. rewrite !list_elem_of_In, filter_In, negb_true_iff,
      bool_decide_eq_false. reflexivity.
  - intros cid Hcid. apply unreviewed_filter_count.
    rewrite negb_true_iff, bool_decide_eq_false. exact Hcid.
Qed.

Lemma get_unreviewed_cases_exact_witness :
  sublist (get_unreviewed_cases ["c1"; "c2"; "c3"; "c1"] world_ab)
          ["c1"; "c2"; "c3"; "c1"].
Proof.
  exact (proj1 (get_unreviewed_cases_exact ["c1"; "c2"; "c3"; "c1"]
                  world_ab session_ab eq_refl)).
Defined.

(** The empty list and the empty reviewed set. *)
Lemma get_unreviewed_cases_empty_inputs (w : World) (s : UserSession) :
  current_session w = Some s ->
  get_unreviewed_cases [] w = []
  /\ (reviewed_case_ids s = ∅ ->
      ∀ all_case_ids, get_unreviewed_cases all_case_ids w = all_case_ids).
Proof.
  intros Hs. unfold get_unreviewed_cases. rewrite Hs.
  split; [reflexivity|]. intros Hempty l. rewrite Hempty.
  induction l as [|x l IH]; cbn [List.filter]; [reflexivity|].
  rewrite bool_decide_eq_false_2 by set_solver. cbn [negb]. by rewrite IH.
Qed.

(** C10: with no session active the read side answers without raising:
    [has_reviewed] is false for every id and [get_unreviewed_cases] returns
    its argument. *)
Theorem read_side_without_session (w : World) :
  current_session w = None ->
  (∀ cid, has_reviewed cid w = false)
  /\ (∀ all_case_ids, get_unreviewed_cases all_case_ids w = all_case_ids).
Proof.
  intros Hs. unfold has_reviewed, get_unreviewed_cases. rewrite Hs.
  split; reflexivity.
Qed.

Lemma read_side_without_session_witness :
  has_reviewed "c1" world_idle = false
  /\ get_unreviewed_cases ["c1"; "c2"] world_idle = ["c1"; "c2"].
Proof.
  destruct (read_side_without_session world_idle eq_refl) as [H1 H2].
  split; [apply H1 | apply H2].
Defined.

End ReadSide.

(** ** Reading an evaluation back from the log *)

Section Reconstruction.
Import Case Store Samples.

Lemma step_description_is_evaluation (it : Iteration) :
  bool_decide (step_description it ≠ "human_evaluation") = negb (is_evaluation it).
Proof.
  unfold step_description, is_evaluation.
  destruct (kind it) as [[]|]; reflexivity.
Qed.

Lemma latest_evaluation_none (h : list Iteration) :
  (∀ k it, h !! k = Some it → is_evaluation it = false) →
  latest_evaluation h = None.
Proof.
  induction h as [|x rest IH]; intros Hall; cbn [latest_evaluation]; [reflexivity|].
  rewrite IH by (intros k it Hk; exact (Hall (S k) it Hk)).
  specialize (Hall 0 x eq_refl). unfold eval_data_of, is_evaluation in *.
  destruct (kind x); [reflexivity | discriminate].
Qed.

Lemma latest_evaluation_at (h : list Iteration) (e : nat) (it : Iteration) :
  h !! e = Some it →
  is_evaluation it = true →
  (∀ k it', e < k → h !! k = Some it' → is_evaluation it' = false) →
  latest_evaluation h = eval_data_of it.
Proof.
  revert e. induction h as [|x rest IH]; intros e He Hev Hlater; [discriminate|].
  cbn [latest_evaluation]. destruct e as [|e'].
  - injection He as ->.
    rewrite latest_evaluation_none; [reflexivity|].
    intros k it' Hk. apply (Hlater (S k)); [lia | exact Hk].
  - rewrite (IH e' He Hev).
    + unfold eval_data_of, is_evaluation in *.
      destruct (kind it); [discriminate | reflexivity].
    + intros k it' Hlt Hk. apply (Hlater (S k)); [lia | exact Hk].
Qed.

Lemma scan_back_nearest (h : list Iteration) (n j : nat) (itj : Iteration) :
  j < n →
  h !! j = Some itj →
  is_evaluation itj = false →
  (∀ k it, j < k < n → h !! k = Some it → is_evaluation it = true) →
  scan_back h n = Some (data itj).
Proof.
  induction n as [|i IH]; intros Hlt Hj Hsnap Hbetween; [lia|].
  cbn [scan_back]. destruct (decide (i = j)) as [->|Hne].
  - rewrite Hj, step_description_is_evaluation, Hsnap. reflexivity.
  - assert (IH' : scan_back h i = Some (data itj)).
    { apply IH; [lia | exact Hj | exact Hsnap |].
      intros k it Hk. apply Hbetween. lia. }
    destruct (h !! i) as [it|] eqn:Hi; [|exact IH'].
    rewrite step_description_is_evaluation, (Hbetween i it) by (lia || exact Hi).
    exact IH'.
Qed.

Lemma scan_back_all_evaluations (h : list Iteration) (n : nat) :
  (∀ k it, k < n → h !! k = Some it → is_evaluation it = true) →
  scan_back h n = None.
Proof.
  induction n as [|i IH]; intros Hall; [reflexivity|].
  cbn [scan_back].
  assert (IH' : scan_back h i = None).
  { apply IH. intros k it Hk. apply Hall. lia. }
  destruct (h !! i) as [it|] eqn:Hi; [|exact IH'].
  rewrite step_description_is_evaluation, (Hall i it) by (lia || exact Hi).
  exact IH'.
Qed.

(** C1, as amended: in a record whose iterations carry their positions, let
    [e] be the index of the most recent human evaluation and [j] the nearest
    index before [e] whose iteration is not a human evaluation.  When the
    data at [j] is a tagged case, the view's original case is that data, and
    its updated case is the data at [e] if the evaluation has edits and none
    otherwise.  When the data at [j] is an untagged case, the view's original
    case is the data at [e] instead. *)
Theorem get_evaluation_reconstructs (cid : string) (ld : CaseLoader)
    (r : CaseRecord) (e j : nat) (it_e it_j : Iteration) (m : EvaluationMeta) :
  cases ld !! cid = Some r →
  well_formed (refinement_history r) →
  refinement_history r !! e = Some it_e →
  kind it_e = HumanEvaluation m →
  (∀ k it, e < k → refinement_history r !! k = Some it → is_evaluation it = false) →
  j < e →
  refinement_history r !! j = Some it_j →
  is_evaluation it_j = false →
  (∀ k it, j < k < e → refinement_history r !! k = Some it → is_evaluation it = true) →
  (∀ b, data it_j = Tagged b →
     (has_edits m = false →
        get_evaluation cid ld = Ok (Some (view_of cid it_e m b None)))
     ∧ (∀ c, has_edits m = true → data it_e = Tagged c →
        get_evaluation cid ld = Ok (Some (view_of cid it_e m b (Some c)))))
  ∧ (∀ d c, data it_j = Draft d → data it_e = Tagged c →
       get_evaluation cid ld
       = Ok (Some (view_of cid it_e m c (if has_edits m then Some c else None)))).
Proof.
  intros Hfound Hwf He Hkind Hlast Hlt Hj Hsnap Hbetween.
  assert (Hev : is_evaluation it_e = true)
    by (unfold is_evaluation; rewrite Hkind; reflexivity).
  assert (Hlatest : get_latest_evaluation r = eval_data_of it_e)
    by (exact (latest_evaluation_at _ e it_e He Hev Hlast)).
  assert (Hidx : iteration it_e = e) by (exact (Hwf e it_e He)).
  assert (Hscan : scan_back (refinement_history r) e = Some (data it_j))
    by (exact (scan_back_nearest _ e j it_j Hlt Hj Hsnap Hbetween)).
  unfold get_evaluation. rewrite Hfound, Hlatest.
  unfold eval_data_of. rewrite Hkind. cbn [ed_iteration ed_has_edits].
  rewrite Hidx, Hscan, He.
  split.
  - intros b Hb. rewrite Hb. split.
    + intros ->. unfold make_CaseEvaluation. reflexivity.
    + intros c -> ->. unfold make_CaseEvaluation. reflexivity.
  - intros d c Hd Hc. rewrite Hd, Hc.
    destruct (has_edits m); reflexivity.
Qed.

(** C6: a case without any human evaluation gives no view and no error; for
    a log that is a single human evaluation, every view returned has that
    iteration's data as its original case, and one is returned whenever that
    data is a tagged case. *)
Theorem get_evaluation_edge_cases (cid : string) (ld : CaseLoader) (r : CaseRecord) :
  cases ld !! cid = Some r →
  ((∀ k it, refinement_history r !! k = Some it → is_evaluation it = false) →
     get_evaluation cid ld = Ok None)
  ∧ (∀ it, refinement_history r = [it] → is_evaluation it = true →
       (∀ view, get_evaluation cid ld = Ok (Some view) →
          Tagged (original_case view) = data it)
       ∧ (∀ b, data it = Tagged b →
            ∃ view, get_evaluation cid ld = Ok (Some view)
                    ∧ original_case view = b)).
Proof.
  intros Hfound. split.
  - intros Hnone. unfold get_evaluation, get_latest_evaluation.
    rewrite Hfound, (latest_evaluation_none _ Hnone). reflexivity.
  - intros it Hone Hev.
    assert (Hscan : ∀ n, scan_back [it] n = None).
    { intros n. apply scan_back_all_evaluations.
      intros [|k] it' _ Hk; [injection Hk as <-; exact Hev | discriminate]. }
    assert (Hcur : ∀ n, match [it] !! n with
                        | Some x => Some (data x)
                        | None => data <$> last [it]
                        end = Some (data it)).
    { intros [|n]; reflexivity. }
    unfold get_evaluation, get_latest_evaluation, final_case.
    rewrite Hfound, Hone. cbn [latest_evaluation].
    unfold eval_data_of, is_evaluation in *.
    destruct (kind it) as [|m]; [discriminate|].
    cbn [ed_iteration ed_has_edits]. rewrite Hscan, Hcur.
    cbn [lookup list_lookup fmap option_fmap option_map].
    unfold make_CaseEvaluation.
    split.
    + intros view. destruct (data it) as [d|b]; cbn [as_BenchmarkCandidate].
      * destruct (has_edits m); discriminate.
      * destruct (has_edits m); intros [= <-]; reflexivity.
    + intros b ->. cbn [as_BenchmarkCandidate].
      destruct (has_edits m); eexists; (split; [reflexivity|reflexivity]).
Qed.

(** X18: when every iteration before the evaluation is itself an evaluation, the
    scan finds nothing and the original case is the data of iteration 0. *)
Lemma get_evaluation_fallback (cid : string) (ld : CaseLoader) (r : CaseRecord)
    (e : nat) (it_e it_0 : Iteration) (m : EvaluationMeta)
    (b c : BenchmarkCandidate) :
  cases ld !! cid = Some r →
  well_formed (refinement_history r) →
  refinement_history r !! e = Some it_e →
  kind it_e = HumanEvaluation m →
  (∀ k it, e < k → refinement_history r !! k = Some it → is_evaluation it = false) →
  (∀ k it, k < e → refinement_history r !! k = Some it → is_evaluation it = true) →
  refinement_history r !! 0 = Some it_0 →
  data it_0 = Tagged b →
  data it_e = Tagged c →
  get_evaluation cid ld
  = Ok (Some (view_of cid it_e m b (if has_edits m then Some c else None))).
Proof.
  intros Hfound Hwf He Hkind Hlast Hbefore H0 Hb Hc.
  assert (Hev : is_evaluation it_e = true)
    by (unfold is_evaluation; rewrite Hkind; reflexivity).
  unfold get_evaluation, get_latest_evaluation.
  rewrite Hfound, (latest_evaluation_at _ e it_e He Hev Hlast).
  unfold eval_data_of. rewrite Hkind. cbn [ed_iteration ed_has_edits].
  rewrite (Hwf e it_e He), (scan_back_all_evaluations _ e Hbefore), H0, He.
  cbn [fmap option_fmap option_map]. rewrite Hb, Hc.
  destruct (has_edits m); reflexivity.
Qed.

(** A case id the loader does not know gives no view either. *)
Lemma get_evaluation_unknown_case (cid : string) (ld : CaseLoader) :
  cases ld !! cid = None → get_evaluation cid ld = Ok None.
Proof. intros H. unfold get_evaluation. rewrite H. reflexivity. Qed.

(** The two reconstruction examples of the specification, on tagged cases. *)
Lemma get_evaluation_reconstructs_witness :
  get_evaluation "case_1" (loader_of record_edit)
  = Ok (Some (view_of "case_1" eval_edit meta_edit case_B (Some case_C))).
Proof.
  refine (proj2 (proj1 (get_evaluation_reconstructs "case_1" (loader_of record_edit)
            record_edit 2 1 eval_edit (snapshot 1 refined (Tagged case_B)) meta_edit
            _ _ _ _ _ _ _ _ _) case_B eq_refl) case_C eq_refl eq_refl).
  - reflexivity.
  - intros [|[|[|k]]] it Hk; try discriminate; injection Hk as <-; reflexivity.
  - reflexivity.
  - reflexivity.
  - intros [|[|[|k]]] it Hlt Hk; try lia; discriminate.
  - lia.
  - reflexivity.
  - reflexivity.
  - intros k it Hlt; lia.
Defined.

Example get_evaluation_approve_example :
  get_evaluation "case_1" (loader_of record_approve)
  = Ok (Some (view_of "case_1" eval_approve meta_approve case_B None)).
Proof. vm_compute. reflexivity. Qed.

(** C1, as stated, fails: in the log [draft(A), refined(B),
    human_evaluation(reject, C, has_edits)] with A and B untagged cases, the
    nearest non-evaluation iteration before the evaluation holds B, and the
    view's original case is C. *)
Lemma get_evaluation_untagged_original :
  refinement_history record_untagged !! 1
    = Some (snapshot 1 refined (Draft draft_B))
  ∧ get_evaluation "case_1" (loader_of record_untagged)
    = Ok (Some (view_of "case_1" eval_edit meta_edit case_C (Some case_C)))
  ∧ Tagged case_C ≠ Draft draft_B.
Proof.
  split; [reflexivity|]. split; [vm_compute; reflexivity | discriminate].
Qed.

Lemma get_evaluation_edge_cases_witness :
  get_evaluation "case_1" (loader_of record_snapshots) = Ok None
  ∧ ∃ view, get_evaluation "case_1" (loader_of record_single) = Ok (Some view)
            ∧ original_case view = case_C.
Proof.
  split.
  - refine (proj1 (get_evaluation_edge_cases "case_1" (loader_of record_snapshots)
                     record_snapshots _) _); [reflexivity|].
    intros [|[|k]] it Hk; try discriminate; injection Hk as <-; reflexivity.
  - refine (proj2 (proj2 (get_evaluation_edge_cases "case_1" (loader_of record_single)
                     record_single _) eval_single_C eq_refl eq_refl) case_C eq_refl).
    reflexivity.
Defined.

End Reconstruction.

(** ** The recording transaction *)

Section Recording.
Import Case Store Samples.
#[local] Arguments add_human_evaluation : simpl never.
#[local] Arguments FileName.session_file_name : simpl never.

Variable isoformat : nat -> string.
Variable set_to_list : gset string -> list string.

Ltac run_store :=
  unfold record_evaluation, save_session, add_evaluation, save_case,
    get_case_by_id, write_json, now, try_except, bind, ret, raise,
    get_state, modify.

Lemma record_evaluation_add_fails cid dec upd nts w s r e :
  current_session w = Some s ->
  dec ∈ ["approve"; "reject"] ->
  cases (loader w) !! cid = Some r ->
  add_human_evaluation r dec (user_email s) upd nts (isoformat (clock w)) = Raise e ->
  record_evaluation isoformat set_to_list cid dec upd nts w
  = (Raise (RuntimeError ("Failed to record evaluation: " +:+ str_of_exception e)),
     tick w).
Proof.
  intros Hs Hd Hr Hadd. run_store. rewrite Hs.
  rewrite (bool_decide_eq_true_2 _ Hd). cbn [negb].
  rewrite Hr. cbn [current_session tick]. rewrite Hs, Hadd. reflexivity.
Qed.

Lemma record_evaluation_save_case_fails cid dec upd nts w s r r' :
  current_session w = Some s ->
  dec ∈ ["approve"; "reject"] ->
  cases (loader w) !! cid = Some r ->
  add_human_evaluation r dec (user_email s) upd nts (isoformat (clock w)) = Ok r' ->
  cases_writable (loader w) = false ->
  record_evaluation isoformat set_to_list cid dec upd nts w
  = (Raise (RuntimeError ("Failed to record evaluation: "
                          +:+ str_of_exception (OSError (case_id r')))),
     tick w).
Proof.
  intros Hs Hd Hr Hadd Hro. run_store. rewrite Hs.
  rewrite (bool_decide_eq_true_2 _ Hd). cbn [negb].
  rewrite Hr. cbn [current_session tick]. rewrite Hs, Hadd.
  cbv beta iota. cbn [loader tick]. rewrite Hro. reflexivity.
Qed.

Lemma record_evaluation_saved cid dec upd nts w s r r' :
  current_session w = Some s ->
  dec ∈ ["approve"; "reject"] ->
  cases (loader w) !! cid = Some r ->
  add_human_evaluation r dec (user_email s) upd nts (isoformat (clock w)) = Ok r' ->
  cases_writable (loader w) = true ->
  ∃ res w',
    record_evaluation isoformat set_to_list cid dec upd nts w = (res, w')
    ∧ current_session w'
      = Some (set_last_updated (isoformat (S (clock w))) (add_reviewed cid s))
    ∧ cases (loader w') = <[case_id r' := r']> (cases (loader w))
    ∧ (files_writable w = true ->
         res = Ok tt
         ∧ files w'
           = <[_get_session_file_path (evaluations_dir w) (user_email s)
               := session_dict set_to_list
                    (set_last_updated (isoformat (S (clock w))) (add_reviewed cid s))]>
             (files w))
    ∧ (files_writable w = false -> ∃ msg, res = Raise (RuntimeError msg)).
Proof.
  destruct w as [dir cs fs fw [cmap cw] clk]. cbn in *.
  intros -> Hd Hr Hadd ->. run_store. cbn.
  rewrite (bool_decide_eq_true_2 _ Hd). cbn.
  rewrite Hr. cbn. rewrite Hadd. cbn.
  destruct fw; cbn.
  - eexists _, _. split; [reflexivity|]. cbn.
    repeat split; try reflexivity; try discriminate.
  - eexists _, _. split; [reflexivity|]. cbn.
    repeat split; try reflexivity; try discriminate.
    intros _. eexists. reflexivity.
Qed.

Lemma record_evaluation_no_session cid dec upd nts w :
  current_session w = None ->
  record_evaluation isoformat set_to_list cid dec upd nts w
  = (Raise (ValueError "No active session. Call load_or_create_session first."), w).
Proof. intros Hs. run_store. rewrite Hs. reflexivity. Qed.

Lemma record_evaluation_bad_decision cid dec upd nts w s :
  current_session w = Some s ->
  dec ∉ ["approve"; "reject"] ->
  record_evaluation isoformat set_to_list cid dec upd nts w
  = (Raise (ValueError ("Invalid decision: " +:+ dec
                        +:+ ". Must be 'approve' or 'reject'")), w).
Proof.
  intros Hs Hd. run_store. rewrite Hs.
  rewrite (bool_decide_eq_false_2 _ Hd). reflexivity.
Qed.

Lemma record_evaluation_not_found cid dec upd nts w s :
  current_session w = Some s ->
  dec ∈ ["approve"; "reject"] ->
  cases (loader w) !! cid = None ->
  record_evaluation isoformat set_to_list cid dec upd nts w
  = (Raise (RuntimeError ("Case " +:+ cid +:+ " not found")), w).
Proof.
  intros Hs Hd Hr. run_store. rewrite Hs.
  rewrite (bool_decide_eq_true_2 _ Hd). cbn [negb]. rewrite Hr. reflexivity.
Qed.

(** A call that fails anywhere before the session is touched leaves
    [has_reviewed] as it was. *)
Lemma has_reviewed_tick cid w : has_reviewed cid (tick w) = has_reviewed cid w.
Proof. reflexivity. Qed.

(** C2: [record_evaluation] raises the invalid-state error without a
    session, the invalid-input error on a decision other than approve and
    reject, and the not-found error when the loader has no record; in each
    of these the whole state is unchanged.  When adding the evaluation or
    saving the record fails, the call raises and the session is unchanged.
    And a case id that enters the reviewed set does so only with the
    evaluation added and the record stored. *)
Theorem record_evaluation_atomic cid dec upd nts w :
  (current_session w = None ->
     record_evaluation isoformat set_to_list cid dec upd nts w
     = (Raise (ValueError "No active session. Call load_or_create_session first."), w))
  ∧ (∀ s, current_session w = Some s -> dec ∉ ["approve"; "reject"] ->
       record_evaluation isoformat set_to_list cid dec upd nts w
       = (Raise (ValueError ("Invalid decision: " +:+ dec
                             +:+ ". Must be 'approve' or 'reject'")), w))
  ∧ (∀ s, current_session w = Some s -> dec ∈ ["approve"; "reject"] ->
       cases (loader w) !! cid = None ->
       record_evaluation isoformat set_to_list cid dec upd nts w
       = (Raise (RuntimeError ("Case " +:+ cid +:+ " not found")), w))
  ∧ (∀ s r, current_session w = Some s -> dec ∈ ["approve"; "reject"] ->
       cases (loader w) !! cid = Some r ->
       (∃ e, add_human_evaluation r dec (user_email s) upd nts
               (isoformat (clock w)) = Raise e)
       ∨ cases_writable (loader w) = false ->
       ∃ msg w',
         record_evaluation isoformat set_to_list cid dec upd nts w
         = (Raise (RuntimeError msg), w')
         ∧ current_session w' = Some s)
  ∧ (∀ s res w', current_session w = Some s ->
       record_evaluation isoformat set_to_list cid dec upd nts w = (res, w') ->
       cid ∉ reviewed_case_ids s ->
       has_reviewed cid w' = true ->
       ∃ r r',
         cases (loader w) !! cid = Some r
         ∧ add_human_evaluation r dec (user_email s) upd nts
             (isoformat (clock w)) = Ok r'
         ∧ cases (loader w') !! case_id r' = Some r').
Proof.
  split; [apply record_evaluation_no_session|].
  split; [apply record_evaluation_bad_decision|].
  split; [apply record_evaluation_not_found|].
  split.
  - intros s r Hs Hd Hr Hfail.
    destruct (add_human_evaluation r dec (user_email s) upd nts
                (isoformat (clock w))) as [r'|e] eqn:Hadd.
    + destruct Hfail as [[e He]|Hro]; [discriminate|].
      eexists _, _. split.
      * exact (record_evaluation_save_case_fails _ _ _ _ _ _ _ _ Hs Hd Hr Hadd Hro).
      * exact Hs.
    + eexists _, _. split.
      * exact (record_evaluation_add_fails _ _ _ _ _ _ _ _ Hs Hd Hr Hadd).
      * exact Hs.
  - intros s res w' Hs Hrun Hfresh Hafter.
    assert (Hbefore : has_reviewed cid w = false).
    { unfold has_reviewed. rewrite Hs. by apply bool_decide_eq_false_2. }
    destruct (decide (dec ∈ ["approve"; "reject"])) as [Hd|Hd].
    2:{ rewrite (record_evaluation_bad_decision _ _ _ _ _ _ Hs Hd) in Hrun.
        injection Hrun as <- <-. congruence. }
    destruct (cases (loader w) !! cid) as [r|] eqn:Hr.
    2:{ rewrite (record_evaluation_not_found _ _ _ _ _ _ Hs Hd Hr) in Hrun.
        injection Hrun as <- <-. congruence. }
    destruct (add_human_evaluation r dec (user_email s) upd nts
                (isoformat (clock w))) as [r'|e] eqn:Hadd.
    2:{ rewrite (record_evaluation_add_fails _ _ _ _ _ _ _ _ Hs Hd Hr Hadd) in Hrun.
        injection Hrun as <- <-. rewrite has_reviewed_tick in Hafter. congruence. }
    destruct (cases_writable (loader w)) eqn:Hcw.
    2:{ rewrite (record_evaluation_save_case_fails _ _ _ _ _ _ _ _ Hs Hd Hr Hadd Hcw)
          in Hrun.
        injection Hrun as <- <-. rewrite has_reviewed_tick in Hafter. congruence. }
    destruct (record_evaluation_saved _ _ _ _ _ _ _ _ Hs Hd Hr Hadd Hcw)
      as (res0 & w0 & Hrun0 & _ & Hcases & _).
    rewrite Hrun0 in Hrun. injection Hrun as <- <-.
    exists r, r'. split; [reflexivity|]. split; [exact Hadd|].
    rewrite Hcases. apply lookup_insert_eq.
Qed.

(** The call goes through when nothing stands in its way. *)
Lemma record_evaluation_succeeds cid dec upd nts w s r r' :
  current_session w = Some s ->
  dec ∈ ["approve"; "reject"] ->
  cases (loader w) !! cid = Some r ->
  add_human_evaluation r dec (user_email s) upd nts (isoformat (clock w)) = Ok r' ->
  cases_writable (loader w) = true ->
  files_writable w = true ->
  ∃ w', record_evaluation isoformat set_to_list cid dec upd nts w = (Ok tt, w').
Proof.
  intros Hs Hd Hr Hadd Hcw Hfw.
  destruct (record_evaluation_saved _ _ _ _ _ _ _ _ Hs Hd Hr Hadd Hcw)
    as (res & w' & Hrun & _ & _ & Hok & _).
  destruct (Hok Hfw) as [-> _]. exists w'. exact Hrun.
Qed.

(** C9: an id that is not in the reviewed set is not reviewed before the
    call, and once [record_evaluation] has returned normally it is. *)
Theorem has_reviewed_after_record cid dec upd nts w w' s :
  current_session w = Some s ->
  cid ∉ reviewed_case_ids s ->
  record_evaluation isoformat set_to_list cid dec upd nts w = (Ok tt, w') ->
  has_reviewed cid w = false ∧ has_reviewed cid w' = true.
Proof.
  intros Hs Hfresh Hrun. split.
  { unfold has_reviewed. rewrite Hs. by apply bool_decide_eq_false_2. }
  destruct (decide (dec ∈ ["approve"; "reject"])) as [Hd|Hd].
  2:{ rewrite (record_evaluation_bad_decision _ _ _ _ _ _ Hs Hd) in Hrun.
      discriminate. }
  destruct (cases (loader w) !! cid) as [r|] eqn:Hr.
  2:{ rewrite (record_evaluation_not_found _ _ _ _ _ _ Hs Hd Hr) in Hrun.
      discriminate. }
  destruct (add_human_evaluation r dec (user_email s) upd nts
              (isoformat (clock w))) as [r'|e] eqn:Hadd.
  2:{ rewrite (record_evaluation_add_fails _ _ _ _ _ _ _ _ Hs Hd Hr Hadd) in Hrun.
      discriminate. }
  destruct (cases_writable (loader w)) eqn:Hcw.
  2:{ rewrite (record_evaluation_save_case_fails _ _ _ _ _ _ _ _ Hs Hd Hr Hadd Hcw)
        in Hrun. discriminate. }
  destruct (record_evaluation_saved _ _ _ _ _ _ _ _ Hs Hd Hr Hadd Hcw)
    as (res0 & w0 & Hrun0 & Hsess & _).
  rewrite Hrun0 in Hrun. injection Hrun as _ <-.
  unfold has_reviewed. rewrite Hsess. cbn [reviewed_case_ids set_last_updated add_reviewed].
  apply bool_decide_eq_true_2, elem_of_union_l, elem_of_singleton. reflexivity.
Qed.

End Recording.

Section RecordingExamples.
Import Case Store Samples.

Lemma record_evaluation_atomic_witness :
  record_evaluation sample_isoformat elements "case_1" "maybe" None None world_review
  = (Raise (ValueError "Invalid decision: maybe. Must be 'approve' or 'reject'"),
     world_review)
  ∧ record_evaluation sample_isoformat elements "case_9" "approve" None None world_review
    = (Raise (RuntimeError "Case case_9 not found"), world_review)
  ∧ record_evaluation sample_isoformat elements "case_1" "approve" None None world_idle
    = (Raise (ValueError "No active session. Call load_or_create_session first."),
       world_idle).
Proof.
  split; [|split].
  - refine (proj1 (proj2 (record_evaluation_atomic sample_isoformat elements
                            "case_1" "maybe" None None world_review))
                  session_ab eq_refl _).
    intros H. repeat (apply elem_of_cons in H as [H|H]; [discriminate|]).
    by apply elem_of_nil in H.
  - refine (proj1 (proj2 (proj2 (record_evaluation_atomic sample_isoformat elements
                            "case_9" "approve" None None world_review)))
                  session_ab eq_refl _ eq_refl).
    apply list_elem_of_here.
  - exact (proj1 (record_evaluation_atomic sample_isoformat elements
                    "case_1" "approve" None None world_idle) eq_refl).
Defined.

Lemma has_reviewed_after_record_witness :
  has_reviewed "case_1" world_review = false
  ∧ has_reviewed "case_1"
      (record_evaluation sample_isoformat elements "case_1" "approve" None None
         world_review).2 = true.
Proof.
  apply (has_reviewed_after_record sample_isoformat elements "case_1" "approve"
           None None world_review _ session_ab).
  - reflexivity.
  - intros H. change ("case_1" ∈ ({["c2"]} : gset string)) in H.
    apply elem_of_singleton in H. discriminate.
  - destruct (record_evaluation_succeeds sample_isoformat elements "case_1" "approve"
                None None world_review session_ab record_snapshots _
                eq_refl (list_elem_of_here _ _) eq_refl eq_refl eq_refl eq_refl)
      as [w' Hw'].
    rewrite Hw'. reflexivity.
Defined.

End RecordingExamples.

(** ** Saving and loading a session *)

Section RoundTrip.
Import Case Store Samples.
#[local] Arguments FileName.session_file_name : simpl never.

Variable isoformat : nat -> string.
Variable set_to_list : gset string -> list string.

(** [list(s)] enumerates the elements of [s], in whatever order. *)
Hypothesis set_to_list_elements : ∀ (X : gset string) x, x ∈ set_to_list X ↔ x ∈ X.

Lemma strings_of_strings (l : list string) :
  strings_of (JString <$> l) = Ok l.
Proof.
  induction l as [|x l IH]; [reflexivity|].
  cbn [fmap list_fmap strings_of]. fold (fmap (M := list) JString l).
  rewrite IH. reflexivity.
Qed.

Lemma set_of_list_of_set (X : gset string) : list_to_set (set_to_list X) = X.
Proof.
  apply set_eq. intros x. rewrite elem_of_list_to_set. apply set_to_list_elements.
Qed.

Lemma as_str_set_array (l : list string) :
  as_str_set (JArray (JString <$> l)) = Ok (list_to_set l).
Proof. unfold as_str_set. rewrite strings_of_strings. reflexivity. Qed.

Lemma session_dict_getitem (s : UserSession) :
  json_getitem (session_dict set_to_list s) "user_email" = Ok (JString (user_email s))
  ∧ json_getitem (session_dict set_to_list s) "session_id" = Ok (JString (session_id s))
  ∧ json_getitem (session_dict set_to_list s) "started_at" = Ok (JString (started_at s))
  ∧ json_getitem (session_dict set_to_list s) "last_updated"
    = Ok (JString (last_updated s)).
Proof. repeat split; reflexivity. Qed.

Lemma session_dict_get_ids (s : UserSession) :
  json_get_or_empty (session_dict set_to_list s) "reviewed_case_ids"
  = Ok (JArray (JString <$> set_to_list (reviewed_case_ids s))).
Proof. reflexivity. Qed.

(** Parsing the dictionary [save_session] writes gives the session back. *)
Lemma load_session_dict (path : string) (w : World) (s : UserSession) :
  files w !! path = Some (session_dict set_to_list s) ->
  _load_session_from_file path w = Ok s.
Proof.
  intros Hfile. unfold _load_session_from_file. rewrite Hfile.
  destruct (session_dict_getitem s) as (-> & -> & -> & ->).
  rewrite session_dict_get_ids.
  cbn [result_bind as_str]. rewrite as_str_set_array. cbn [result_bind].
  rewrite set_of_list_of_set. destruct s; reflexivity.
Qed.

(** What [save_session] does to the state when the session to save is [s]. *)
Lemma save_session_run (arg : option UserSession) (w : World) (s : UserSession) :
  match arg with Some x => Some x | None => current_session w end = Some s ->
  let s' := set_last_updated (isoformat (clock w)) s in
  let path := _get_session_file_path (evaluations_dir w) (user_email s) in
  if files_writable w
  then ∃ w', save_session isoformat set_to_list arg w = (Ok s', w')
             ∧ evaluations_dir w' = evaluations_dir w
             ∧ files w' = <[path := session_dict set_to_list s']> (files w)
  else ∃ w', save_session isoformat set_to_list arg w = (Raise (OSError path), w')
             ∧ files w' = files w.
Proof.
  intros Hsel s' path. subst s' path.
  destruct w as [dir cs fs fw ld clk].
  unfold save_session, write_json, now, bind, ret, raise, get_state, modify.
  cbn [current_session] in *. rewrite Hsel.
  destruct arg as [x|]; cbn; destruct fw; eexists; (split; [reflexivity|]); cbn;
    try split; reflexivity.
Qed.

(** C7: after a successful [save_session], loading the session file of the
    same email gives a session with the same reviewed set, whatever order
    the set was written in, and the same [user_email] and [session_id]. *)
Theorem session_round_trip (arg : option UserSession) (w w' : World)
    (s saved : UserSession) :
  match arg with Some x => Some x | None => current_session w end = Some s ->
  save_session isoformat set_to_list arg w = (Ok saved, w') ->
  ∃ loaded,
    load_session (user_email s) w' = Ok loaded
    ∧ reviewed_case_ids loaded = reviewed_case_ids s
    ∧ user_email loaded = user_email s
    ∧ session_id loaded = session_id s
    ∧ loaded = saved.
Proof.
  intros Hsel Hsave. pose proof (save_session_run arg w s Hsel) as Hrun.
  cbv zeta in Hrun. destruct (files_writable w).
  - destruct Hrun as (w0 & Hrun & Hdir & Hfiles).
    rewrite Hrun in Hsave. injection Hsave as <- <-.
    exists (set_last_updated (isoformat (clock w)) s).
    split; [|repeat split; reflexivity].
    unfold load_session. rewrite Hdir. apply load_session_dict.
    rewrite Hfiles. apply lookup_insert_eq.
  - destruct Hrun as (w0 & Hrun & _). rewrite Hrun in Hsave. discriminate.
Qed.

(** Saving goes through whenever there is a session and the file can be
    written. *)
Lemma save_session_succeeds (arg : option UserSession) (w : World) (s : UserSession) :
  match arg with Some x => Some x | None => current_session w end = Some s ->
  files_writable w = true ->
  ∃ w', save_session isoformat set_to_list arg w
        = (Ok (set_last_updated (isoformat (clock w)) s), w').
Proof.
  intros Hsel Hfw. pose proof (save_session_run arg w s Hsel) as Hrun.
  cbv zeta in Hrun. rewrite Hfw in Hrun.
  destruct Hrun as (w' & Hrun & _). exists w'. exact Hrun.
Qed.

End RoundTrip.

Section RoundTripExamples.
Import Case Store Samples.

Lemma session_round_trip_witness :
  ∃ loaded,
    load_session "a@b.org" (save_session sample_isoformat elements None world_ab).2
    = Ok loaded
    ∧ reviewed_case_ids loaded = {["c2"]}
    ∧ user_email loaded = "a@b.org"
    ∧ session_id loaded = "a_b.org_20250101_000000".
Proof.
  destruct (save_session_succeeds sample_isoformat elements None world_ab session_ab
              eq_refl eq_refl) as [w' Hw'].
  destruct (session_round_trip sample_isoformat elements
              (fun X x => elem_of_elements X x) None world_ab w' session_ab _
              eq_refl Hw') as (loaded & Hload & Hids & Hmail & Hsid & _).
  exists loaded. rewrite Hw'. repeat split; assumption.
Defined.

End RoundTripExamples.

(** ** The critique-refine loop *)

Section CritiqueRefine.
Import Case Generator Samples.
Local Open Scope list_scope.
#[local] Arguments rubric_prompt : simpl never.
#[local] Arguments refine_prompt : simpl never.
#[local] Arguments feedback : simpl never.

Variable llm : Log -> Messages -> ResponseModel -> option Response.
Variable format_criteria : ResponseModel -> string.

(** One round: when it returns, it made exactly the three audit calls and
    the refinement call, and its value is the refinement's answer. *)
Lemma critique_round_calls (i : nat) (draft refined : DraftCase) (log log' : Log) :
  critique_round llm format_criteria i draft log = (Ok refined, log') ->
  ∃ clinical ethical stylistic,
    log' = log ++ round_calls format_criteria draft clinical ethical stylistic refined.
Proof.
  unfold critique_round, complete_rubric, complete_draft, structured_completion,
    bind, ret, raise.
  intros H.
  repeat match type of H with
         | context [llm ?l ?m ?k] =>
             destruct (llm l m k) as [[]|] eqn:?; try discriminate H
         end.
  injection H as <- <-. eexists _, _, _.
  unfold round_calls. rewrite <- !app_assoc. reflexivity.
Qed.

(** C3: whenever the loop returns, it has run two rounds and no more: the
    calls it added are the three audits and the refinement of the input
    case, then the three audits and the refinement of the first refinement's
    answer, whatever the audits reported; its value is the second
    refinement's answer. *)
Theorem critique_refine_two_rounds (draft final : DraftCase) (log log' : Log) :
  critique_refine_loop llm format_criteria draft log = (Ok final, log') ->
  ∃ clinical_1 ethical_1 stylistic_1 refined_1 clinical_2 ethical_2 stylistic_2,
    log' = log
           ++ round_calls format_criteria draft clinical_1 ethical_1 stylistic_1
                refined_1
           ++ round_calls format_criteria refined_1 clinical_2 ethical_2 stylistic_2
                final
    ∧ length (List.filter (is_template "workflows/refine") (drop (length log) log')) = 2
    ∧ length (List.filter (is_template "workflows/rubric") (drop (length log) log')) = 6.
Proof.
  unfold critique_refine_loop. cbn [for_range]. unfold bind at 1 2, ret.
  intros H.
  destruct (critique_round llm format_criteria 0 draft log)
    as [[refined_1|e1] log1] eqn:H1; [|discriminate].
  destruct (critique_round llm format_criteria 1 refined_1 log1)
    as [[refined_2|e2] log2] eqn:H2; [|discriminate].
  injection H as <- <-.
  apply critique_round_calls in H1 as (c1 & e1 & s1 & ->).
  apply critique_round_calls in H2 as (c2 & e2 & s2 & ->).
  exists c1, e1, s1, refined_1, c2, e2, s2.
  rewrite <- !app_assoc. split; [reflexivity|].
  rewrite drop_app_length. split; reflexivity.
Qed.

(** With a completion service that always answers, every round returns,
    and so does the loop. *)
Lemma critique_round_returns (i : nat) (draft : DraftCase) (log : Log) :
  always_answers llm ->
  ∃ refined log', critique_round llm format_criteria i draft log = (Ok refined, log').
Proof.
  intros Hllm.
  unfold critique_round, complete_rubric, complete_draft, structured_completion,
    bind, ret, raise.
  repeat match goal with
         | |- context [llm ?l ?m ?k] =>
             let r := fresh "r" in
             let Hr := fresh "Hr" in
             let Hfit := fresh "Hfit" in
             destruct (Hllm l m k) as (r & Hr & Hfit); rewrite Hr;
             destruct r; try discriminate Hfit; clear Hr Hfit
         end.
  eexists _, _. reflexivity.
Qed.

Lemma critique_refine_loop_returns (draft : DraftCase) (log : Log) :
  always_answers llm ->
  ∃ final log', critique_refine_loop llm format_criteria draft log = (Ok final, log').
Proof.
  intros Hllm. unfold critique_refine_loop. cbn [for_range]. unfold bind at 1 2, ret.
  destruct (critique_round_returns 0 draft log Hllm) as (r1 & log1 & ->).
  destruct (critique_round_returns 1 r1 log1 Hllm) as (r2 & log2 & ->).
  eexists _, _. reflexivity.
Qed.

End CritiqueRefine.

Section CritiqueRefineExamples.
Import Case Generator Samples.
Local Open Scope list_scope.

(** With every audit passing in both rounds the loop still refines twice. *)
Lemma critique_refine_two_rounds_witness :
  critique_refine_loop llm_all_pass sample_criteria draft_A []
  = (Ok second_revision,
     (critique_refine_loop llm_all_pass sample_criteria draft_A []).2)
  ∧ length (List.filter (is_template "workflows/refine")
              (critique_refine_loop llm_all_pass sample_criteria draft_A []).2) = 2.
Proof.
  split; [reflexivity|].
  destruct (critique_refine_two_rounds llm_all_pass sample_criteria draft_A
              second_revision []
              (critique_refine_loop llm_all_pass sample_criteria draft_A []).2
              eq_refl) as (c1 & e1 & s1 & r1 & c2 & e2 & s2 & _ & Hrefine & _).
  exact Hrefine.
Defined.

End CritiqueRefineExamples.

(** ** The value-clarification loop *)

Section ValueClarification.
Import Case Generator Samples.
Local Open Scope list_scope.
#[local] Arguments getitem_tag : simpl never.

Variable llm : Log -> Messages -> ResponseModel -> option Response.
Variable format_criteria : ResponseModel -> string.
Variable draft : DraftCase.
Variable case_with_values : BenchmarkCandidate.

Lemma audited_axes_app (l1 l2 : Log) :
  audited_axes (l1 ++ l2) = audited_axes l1 ++ audited_axes l2.
Proof. unfold audited_axes. rewrite List.filter_app. apply omap_app. Qed.

Lemma failing_pairs_app (l1 l2 : Log) :
  failing_pairs (l1 ++ l2) = failing_pairs l1 ++ failing_pairs l2.
Proof. apply omap_app. Qed.

(** What one answered audit call contributes to the log readings. *)
Lemma audit_call_readings (value : string) (tag_1 tag_2 : ValueTag) (v : ValueRubric) :
  let c := {| call_messages := clarify_prompt format_criteria draft value tag_1 tag_2;
              call_model := ValueRubricModel;
              call_response := Some (RValueRubric v) |} in
  audited_axes [c] = [value]
  ∧ failing_pairs [c]
    = if vr_overall_pass v then [] else [(value, failing_suggested_changes v)].
Proof.
  split; [reflexivity|].
  unfold failing_pairs. cbn [omap list_omap].
  change (failing_pair _) with
    (if vr_overall_pass v then None else Some (value, failing_suggested_changes v)).
  destruct (vr_overall_pass v); reflexivity.
Qed.

(** One pass of the loop body: it audits the axis exactly when one of the
    two tags is not neutral, and appends the pair of a failing audit. *)
Lemma clarify_axis_step (acc adj : list (string * list string)) (value : string)
    (log log' : Log) :
  clarify_axis llm format_criteria draft case_with_values acc value log
  = (Ok adj, log') ->
  ∃ new,
    log' = log ++ new
    ∧ Forall (audit_call format_criteria draft case_with_values) new
    ∧ audited_axes new
      = (if non_neutral case_with_values value then [value] else [])
    ∧ adj = acc ++ failing_pairs new.
Proof.
  unfold clarify_axis, non_neutral, complete_value_rubric, structured_completion,
    lift, bind, ret, raise.
  destruct (getitem_tag (bc_choice_1 case_with_values) value) as [t1|] eqn:Ht1;
    [|discriminate].
  destruct (getitem_tag (bc_choice_2 case_with_values) value) as [t2|] eqn:Ht2;
    [|discriminate].
  destruct (bool_decide (t1 ≠ neutral) || bool_decide (t2 ≠ neutral)).
  - destruct (llm log (clarify_prompt format_criteria draft value t1 t2)
                ValueRubricModel) as [[| | |v]|]; try discriminate.
    destruct (audit_call_readings value t1 t2 v) as [Haxes Hpairs].
    cbv zeta in Haxes, Hpairs.
    destruct (vr_overall_pass v) eqn:Hpass; cbn [negb];
      intros [= <- <-]; eexists; (split; [reflexivity|]);
      (split; [apply Forall_cons; split; [|apply Forall_nil; exact I];
               exists value, t1, t2, v; auto|]);
      rewrite Haxes, Hpairs; (split; [reflexivity|]).
    + by rewrite app_nil_r.
    + reflexivity.
  - intros [= <- <-]. exists []. rewrite !app_nil_r.
    split; [reflexivity|]. split; [apply Forall_nil; exact I|].
    split; reflexivity.
Qed.

(** The loop over any list of axis names. *)
Lemma for_each_clarify (axes : list string) (acc adj : list (string * list string))
    (log log' : Log) :
  for_each axes (clarify_axis llm format_criteria draft case_with_values) acc log
  = (Ok adj, log') ->
  ∃ new,
    log' = log ++ new
    ∧ Forall (audit_call format_criteria draft case_with_values) new
    ∧ audited_axes new = List.filter (non_neutral case_with_values) axes
    ∧ adj = acc ++ failing_pairs new.
Proof.
  revert acc log. induction axes as [|value rest IH]; intros acc log.
  - intros [= <- <-]. exists []. rewrite !app_nil_r.
    split; [reflexivity|]. split; [apply Forall_nil; exact I|]. split; reflexivity.
  - cbn [for_each]. unfold bind at 1.
    destruct (clarify_axis llm format_criteria draft case_with_values acc value log)
      as [[acc1|e] log1] eqn:Hstep; [|discriminate].
    intros Hrest.
    apply clarify_axis_step in Hstep as (new1 & -> & Hall1 & Haxes1 & ->).
    apply IH in Hrest as (new2 & -> & Hall2 & Haxes2 & ->).
    exists (new1 ++ new2). rewrite !app_assoc.
    split; [reflexivity|]. split; [apply Forall_app; split; assumption|].
    rewrite audited_axes_app, failing_pairs_app, Haxes1, Haxes2, !app_assoc.
    split; [|reflexivity].
    cbn [List.filter]. destruct (non_neutral case_with_values value); reflexivity.
Qed.

(** For a value axis, [non_neutral] says that one of the two tags is not
    neutral. *)
Lemma non_neutral_tags (value : string) (tag_1 tag_2 : ValueTag) :
  getitem_tag (bc_choice_1 case_with_values) value = Ok tag_1 ->
  getitem_tag (bc_choice_2 case_with_values) value = Ok tag_2 ->
  non_neutral case_with_values value = true ↔ tag_1 ≠ neutral ∨ tag_2 ≠ neutral.
Proof.
  intros H1 H2. unfold non_neutral. rewrite H1, H2.
  rewrite orb_true_iff, !bool_decide_eq_true. reflexivity.
Qed.

Lemma getitem_tag_axis (c : ChoiceWithValues) (value : string) (t : ValueTag) :
  getitem_tag c value = Ok t -> value ∈ value_axes.
Proof.
  unfold getitem_tag, value_axes. intros H.
  repeat (case_bool_decide; [subst; set_solver +|]). discriminate.
Qed.

(** C4: whenever the value-clarification step returns, the calls it added
    are answered clarification audits, each passing both tags of its axis;
    the axes audited are, in order, those of the four whose two tags are not
    both neutral, so an axis is audited exactly when one of its tags is not
    neutral; the pairs of the failing audits form the collection; with an
    empty collection nothing else is called and the tagged case is the
    result, and otherwise one adjustment call over the whole collection
    follows the audits and its answer is the result. *)
Theorem value_clarification_batched (final : BenchmarkCandidate) (log log' : Log) :
  value_clarification llm format_criteria draft case_with_values log
  = (Ok final, log') ->
  ∃ audits,
    Forall (audit_call format_criteria draft case_with_values) audits
    ∧ audited_axes audits = List.filter (non_neutral case_with_values) value_axes
    ∧ (∀ value tag_1 tag_2,
         getitem_tag (bc_choice_1 case_with_values) value = Ok tag_1 ->
         getitem_tag (bc_choice_2 case_with_values) value = Ok tag_2 ->
         value ∈ audited_axes audits ↔ tag_1 ≠ neutral ∨ tag_2 ≠ neutral)
    ∧ (failing_pairs audits = [] -> log' = log ++ audits ∧ final = case_with_values)
    ∧ (failing_pairs audits ≠ [] ->
         log' = log ++ audits ++ [improve_call draft (failing_pairs audits) final]).
Proof.
  unfold value_clarification, collect_value_adjustments. unfold bind at 1.
  destruct (for_each value_axes
              (clarify_axis llm format_criteria draft case_with_values) [] log)
    as [[adj|e] log1] eqn:Hloop; [|discriminate].
  apply for_each_clarify in Hloop as (audits & -> & Hall & Haxes & ->).
  cbn [app]. intros Hfinal. exists audits.
  split; [exact Hall|]. split; [exact Haxes|]. split.
  { intros value t1 t2 H1 H2. rewrite Haxes, list_elem_of_In, filter_In.
    rewrite (non_neutral_tags value t1 t2 H1 H2), <- list_elem_of_In.
    pose proof (getitem_tag_axis _ _ _ H1). tauto. }
  destruct (failing_pairs audits) as [|p ps] eqn:Hpairs.
  - injection Hfinal as <- <-. split; [intros _; split; reflexivity | congruence].
  - split; [discriminate|]. intros _. revert Hfinal.
    unfold complete_candidate, structured_completion, bind, ret, raise.
    destruct (llm (log ++ audits) (improve_prompt draft (p :: ps))
                BenchmarkCandidateModel) as [[| |b|]|]; try discriminate.
    intros [= <- <-]. rewrite <- app_assoc. reflexivity.
Qed.

(** With a completion service that always answers, the step returns. *)
Lemma for_each_clarify_returns (axes : list string)
    (acc : list (string * list string)) (log : Log) :
  always_answers llm ->
  Forall (λ value, value ∈ value_axes) axes ->
  ∃ adj log',
    for_each axes (clarify_axis llm format_criteria draft case_with_values) acc log
    = (Ok adj, log').
Proof.
  intros Hllm Haxes. revert acc log.
  induction Haxes as [|value rest Hvalue _ IH]; intros acc log.
  - eexists _, _. reflexivity.
  - cbn [for_each]. unfold bind at 1.
    assert (Hstep : ∃ acc1 log1,
               clarify_axis llm format_criteria draft case_with_values acc value log
               = (Ok acc1, log1)).
    { unfold clarify_axis, complete_value_rubric, structured_completion,
        lift, bind, ret, raise.
      assert (Htag : ∀ c, ∃ t, getitem_tag c value = Ok t).
      { intros c. unfold value_axes in Hvalue. unfold getitem_tag.
        repeat (apply elem_of_cons in Hvalue as [->|Hvalue];
                [eexists; reflexivity|]).
        by apply elem_of_nil in Hvalue. }
      destruct (Htag (bc_choice_1 case_with_values)) as [t1 ->].
      destruct (Htag (bc_choice_2 case_with_values)) as [t2 ->].
      destruct (bool_decide (t1 ≠ neutral) || bool_decide (t2 ≠ neutral));
        [|eexists _, _; reflexivity].
      destruct (Hllm log (clarify_prompt format_criteria draft value t1 t2)
                  ValueRubricModel) as (r & -> & Hfit).
      destruct r as [| | |v]; try discriminate Hfit.
      destruct (vr_overall_pass v); eexists _, _; reflexivity. }
    destruct Hstep as (acc1 & log1 & ->). apply IH.
Qed.

Lemma value_clarification_returns (log : Log) :
  always_answers llm ->
  ∃ final log',
    value_clarification llm format_criteria draft case_with_values log
    = (Ok final, log').
Proof.
  intros Hllm. unfold value_clarification, collect_value_adjustments.
  unfold bind at 1.
  destruct (for_each_clarify_returns value_axes [] log Hllm) as (adj & log1 & ->).
  { apply Forall_forall. auto. }
  destruct adj as [|p ps]; [eexists _, _; reflexivity|].
  unfold complete_candidate, structured_completion, bind, ret, raise.
  destruct (Hllm log1 (improve_prompt draft (p :: ps)) BenchmarkCandidateModel)
    as (r & -> & Hfit).
  destruct r; try discriminate Hfit. eexists _, _. reflexivity.
Qed.

End ValueClarification.

Section ValueClarificationExamples.
Import Case Generator Samples.
Local Open Scope list_scope.

Lemma value_clarification_batched_witness :
  ∃ audits,
    Forall (audit_call sample_criteria second_revision case_tagged) audits
    ∧ audited_axes audits = ["autonomy"; "justice"].
Proof.
  destruct (value_clarification_batched llm_all_pass sample_criteria second_revision
              case_tagged case_adjusted []
              (value_clarification llm_all_pass sample_criteria second_revision
                 case_tagged []).2 eq_refl)
    as (audits & Hall & Haxes & _).
  exists audits. split; [exact Hall | exact Haxes].
Defined.

(** Both audits fail: one adjustment call over both pairs ends the log. *)
Example value_clarification_failing_audits :
  let run := value_clarification llm_all_pass sample_criteria second_revision
               case_tagged [] in
  run.1 = Ok case_adjusted
  ∧ audited_axes run.2 = ["autonomy"; "justice"]
  ∧ length run.2 = 3
  ∧ last run.2
    = Some (improve_call second_revision
              [ ("autonomy", ["sharpen the conflict"]);
                ("justice", ["sharpen the conflict"]) ] case_adjusted).
Proof. repeat split; reflexivity. Qed.

(** Both audits pass: no adjustment call, the tagged case is the result. *)
Example value_clarification_passing_audits :
  let run := value_clarification llm_values_pass sample_criteria second_revision
               case_tagged [] in
  run.1 = Ok case_tagged
  ∧ audited_axes run.2 = ["autonomy"; "justice"]
  ∧ length run.2 = 2.
Proof. repeat split; reflexivity. Qed.

(** All tags neutral: no call at all. *)
Example value_clarification_all_neutral :
  value_clarification llm_all_pass sample_criteria second_revision case_A []
  = (Ok case_A, []).
Proof. reflexivity. Qed.

End ValueClarificationExamples.

(** * Further properties *)

(** ** Email validation and file names *)

Section Validation.
Import PyStr PyRe FileName Sessions.

Lemma void_not_nullable (r : Regex) : void r = true -> nullable r = false.
Proof.
  induction r as [| |p|r1 IH1 r2 IH2|r1 IH1 r2 IH2|r1 IH1]; cbn [void nullable];
    try discriminate; try reflexivity.
  - intros [H|H]%orb_true_iff; [rewrite (IH1 H) | rewrite (IH2 H), andb_false_r];
      reflexivity.
  - intros [H1 H2]%andb_true_iff. rewrite (IH1 H1), (IH2 H2). reflexivity.
Qed.

Lemma void_deriv (c : ascii) (r : Regex) : void r = true -> void (deriv c r) = true.
Proof.
  induction r as [| |p|r1 IH1 r2 IH2|r1 IH1 r2 IH2|r1 IH1]; cbn [void deriv];
    try discriminate; try reflexivity.
  - intros [H|H]%orb_true_iff.
    + rewrite (IH1 H), (void_not_nullable r1 H). reflexivity.
    + rewrite H, orb_true_r. destruct (nullable r1); [exact (IH2 H) | reflexivity].
  - intros [H1 H2]%andb_true_iff. rewrite (IH1 H1), (IH2 H2). reflexivity.
Qed.

Lemma void_no_match (s : string) (r : Regex) : void r = true -> fullmatch r s = false.
Proof.
  revert r. induction s as [|c s IH]; intros r Hr; cbn [fullmatch].
  - exact (void_not_nullable r Hr).
  - apply IH, void_deriv, Hr.
Qed.

(** Reading a character outside [P] leaves a pattern with classes within [P]
    nothing to match. *)
Lemma deriv_outside (P : ascii -> bool) (c : ascii) (r : Regex) :
  classes_within P r -> P c = false -> void (deriv c r) = true.
Proof.
  intros Hr Hc.
  induction r as [| |p|r1 IH1 r2 IH2|r1 IH1 r2 IH2|r1 IH1];
    cbn [classes_within void deriv] in *; try reflexivity.
  - destruct (p c) eqn:Hp; [|reflexivity]. rewrite (Hr c Hp) in Hc. discriminate.
  - destruct Hr as [H1 H2]. rewrite (IH1 H1). cbn [orb andb].
    destruct (nullable r1); [exact (IH2 H2) | reflexivity].
  - destruct Hr as [H1 H2]. rewrite (IH1 H1), (IH2 H2). reflexivity.
  - rewrite (IH1 Hr). reflexivity.
Qed.

Lemma classes_within_deriv (P : ascii -> bool) (c : ascii) (r : Regex) :
  classes_within P r -> classes_within P (deriv c r).
Proof.
  induction r as [| |p|r1 IH1 r2 IH2|r1 IH1 r2 IH2|r1 IH1];
    cbn [classes_within deriv]; try exact (fun _ => I).
  - intros _. destruct (p c); exact I.
  - intros [H1 H2]. split; [split; [exact (IH1 H1) | exact H2]|].
    destruct (nullable r1); [exact (IH2 H2) | exact I].
  - intros [H1 H2]. split; [exact (IH1 H1) | exact (IH2 H2)].
  - intros H. split; [exact (IH1 H) | exact H].
Qed.

(** A string that matches a pattern is made of characters of its classes. *)
Lemma fullmatch_chars (P : ascii -> bool) (s : string) (r : Regex) :
  classes_within P r -> fullmatch r s = true -> all_chars P s = true.
Proof.
  revert r. induction s as [|c s IH]; intros r Hr Hm; cbn [all_chars fullmatch] in *;
    [reflexivity|].
  destruct (P c) eqn:Hc.
  - exact (IH _ (classes_within_deriv P c r Hr) Hm).
  - rewrite (void_no_match s _ (deriv_outside P c r Hr Hc)) in Hm. discriminate.
Qed.

Lemma chop_newline_chars (P : ascii -> bool) (s s' : string) :
  P (ascii_of_N 10) = true ->
  chop_newline s = Some s' -> all_chars P s' = true -> all_chars P s = true.
Proof.
  intros Hnl. revert s'. induction s as [|c s IH]; intros s'; [discriminate|].
  cbn [chop_newline]. destruct s as [|c' s].
  - destruct (code c =? 10)%N eqn:Hc; [|discriminate]. intros _ _.
    apply N.eqb_eq in Hc. unfold code in Hc.
    rewrite <- (ascii_N_embedding c), Hc. cbn [all_chars]. rewrite Hnl. reflexivity.
  - destruct (chop_newline (String c' s)) as [t|]; [|discriminate].
    intros [= <-]. cbn [all_chars]. intros [Hc Ht]%andb_true_iff.
    rewrite Hc. exact (IH t eq_refl Ht).
Qed.

Lemma email_pattern_ascii : classes_within is_ascii email_pattern.
Proof.
  cbn [email_pattern Plus AtLeast classes_within].
  repeat split; intros [[] [] [] [] [] [] [] []]; vm_compute; congruence.
Qed.

(** An email that passes validation is made of ASCII characters. *)
Lemma validated_email_ascii (email : string) :
  _validate_email email = true -> all_chars is_ascii email = true.
Proof.
  unfold _validate_email, match_anchored. intros [H|H]%orb_true_iff.
  - exact (fullmatch_chars _ _ _ email_pattern_ascii H).
  - destruct (chop_newline email) as [s'|] eqn:Hchop; [|discriminate].
    apply (chop_newline_chars is_ascii email s' eq_refl Hchop).
    exact (fullmatch_chars _ _ _ email_pattern_ascii H).
Qed.

(** X1: for every email that passes [_validate_email], the session file name is
    the one the lowercase-and-replace rule over [A-Za-z0-9_.-] gives, and
    its sanitized part stays within that class. *)
Theorem validated_email_file_name (email : string) :
  _validate_email email = true ->
  session_file_name email = spec_session_file_name email
  /\ all_chars spec_class (_sanitize_email email) = true.
Proof.
  intros Hvalid. pose proof (validated_email_ascii email Hvalid) as Hascii.
  unfold session_file_name, spec_session_file_name.
  rewrite (sanitize_ascii email Hascii).
  split; [reflexivity | apply spec_sanitize_in_class].
Qed.



Lemma sanitize_char_idempotent (c : ascii) :
  sanitize_char (sanitize_char c) = sanitize_char c.
Proof. destruct c as [[] [] [] [] [] [] [] []]; vm_compute; reflexivity. Qed.

Lemma sanitize_email_chars (email : string) :
  _sanitize_email email
  = (fix go s := match s with
                 | EmptyString => EmptyString
                 | String c r => String (sanitize_char c) (go r)
                 end) email.
Proof.
  unfold _sanitize_email.
  induction email as [|c r IH]; cbn [lower re_sub_class]; [reflexivity|].
  rewrite IH. reflexivity.
Qed.

(** X3: sanitizing is idempotent: a sanitized email is its own sanitization, so
    an email and its sanitized form name the same session file. *)
Theorem sanitize_email_idempotent (email : string) :
  _sanitize_email (_sanitize_email email) = _sanitize_email email
  /\ session_file_name (_sanitize_email email) = session_file_name email.
Proof.
  assert (H : _sanitize_email (_sanitize_email email) = _sanitize_email email).
  { rewrite (sanitize_email_chars (_sanitize_email email)), sanitize_email_chars.
    induction email as [|c r IH]; [reflexivity|].
    rewrite sanitize_char_idempotent, IH. reflexivity. }
  split; [exact H|]. unfold session_file_name. rewrite H. reflexivity.
Qed.

(** The sanitized email has the length of the email. *)
Lemma sanitize_email_length (email : string) :
  String.length (_sanitize_email email) = String.length email.
Proof.
  unfold _sanitize_email.
  induction email as [|c r IH]; cbn [lower re_sub_class String.length];
    [reflexivity | by rewrite IH].
Qed.

End Validation.

(** ** Opening, saving and loading sessions *)

Section OpeningSessions.
Import Case Store Sessions.
#[local] Arguments FileName.session_file_name : simpl never.
#[local] Arguments FileName._sanitize_email : simpl never.
#[local] Arguments _validate_email : simpl never.
#[local] Arguments _load_session_from_file : simpl never.

Variable isoformat : nat -> string.
Variable strftime : nat -> string.
Variable set_to_list : gset string -> list string.

Ltac run_open :=
  unfold load_or_create_session, _create_new_session, of_result, now,
    bind, ret, raise, get_state, modify.

(** What [load_or_create_session] does on a valid email, by whether the
    session file exists and loads. *)
Lemma load_or_create_run (email : string) (w : World) :
  _validate_email email = true ->
  load_or_create_session isoformat strftime email w
  = match files w !! _get_session_file_path (evaluations_dir w) email with
    | None =>
        let s := {| user_email := email;
                    session_id := FileName._sanitize_email email +:+ "_"
                                  +:+ strftime (S (clock w));
                    started_at := isoformat (clock w);
                    last_updated := isoformat (clock w);
                    reviewed_case_ids := ∅ |} in
        (Ok s, set_current_session (Some s) (tick (tick w)))
    | Some _ =>
        match _load_session_from_file
                (_get_session_file_path (evaluations_dir w) email) w with
        | Ok loaded =>
            let s := set_last_updated (isoformat (clock w)) loaded in
            (Ok s, set_current_session (Some s) (tick w))
        | Raise e => (Raise e, w)
        end
    end.
Proof.
  intros Hvalid. run_open. rewrite Hvalid. cbn [negb].
  destruct (files w !! _get_session_file_path (evaluations_dir w) email) as [doc|];
    [|reflexivity].
  destruct (_load_session_from_file _ w) as [loaded|e]; reflexivity.
Qed.

(** X4: [load_or_create_session] rejects an email that fails validation without
    touching anything, and a normal return means that the email is valid,
    that the returned session is now the current one, and that neither the
    session files nor the case loader changed: opening never writes. *)
Theorem load_or_create_session_outcome (email : string) (w : World) :
  (_validate_email email = false ->
     load_or_create_session isoformat strftime email w
     = (Raise (ValueError ("Invalid email format: " +:+ email)), w))
  ∧ (∀ s w', load_or_create_session isoformat strftime email w = (Ok s, w') ->
       _validate_email email = true
       ∧ current_session w' = Some s
       ∧ files w' = files w
       ∧ loader w' = loader w).
Proof.
  split.
  - intros Hbad. run_open. rewrite Hbad. reflexivity.
  - intros s w' Hrun. destruct (_validate_email email) eqn:Hvalid.
    + rewrite (load_or_create_run email w Hvalid) in Hrun.
      destruct (files w !! _get_session_file_path (evaluations_dir w) email).
      * destruct (_load_session_from_file _ w); [|discriminate].
        cbv zeta in Hrun. injection Hrun as <- <-. repeat split; reflexivity.
      * cbv zeta in Hrun. injection Hrun as <- <-. repeat split; reflexivity.
    + revert Hrun. run_open. rewrite Hvalid. discriminate.
Qed.

(** X5: a valid email without a session file gets a fresh session: no id
    reviewed, the email as given, the id made of the sanitized email and the
    time stamp; it becomes the current session and is not yet on disk. *)
Theorem load_or_create_session_fresh (email : string) (w : World) :
  _validate_email email = true ->
  files w !! _get_session_file_path (evaluations_dir w) email = None ->
  ∃ s w',
    load_or_create_session isoformat strftime email w = (Ok s, w')
    ∧ user_email s = email
    ∧ reviewed_case_ids s = ∅
    ∧ session_id s
      = FileName._sanitize_email email +:+ "_" +:+ strftime (S (clock w))
    ∧ current_session w' = Some s
    ∧ (∀ cid, has_reviewed cid w' = false)
    ∧ load_session email w'
      = Raise (OSError (_get_session_file_path (evaluations_dir w) email)).
Proof.
  intros Hvalid Hnone. rewrite (load_or_create_run email w Hvalid), Hnone.
  cbv zeta. eexists _, _. split; [reflexivity|].
  repeat split; try reflexivity.
  unfold load_session. cbn [evaluations_dir set_current_session tick].
  unfold _load_session_from_file. cbn [files set_current_session tick].
  rewrite Hnone. reflexivity.
Qed.

(** X6: sessions are keyed by the sanitized email.  When the session file of
    [owner] holds the saved session [s], opening a session with any valid
    email that sanitizes like [owner] returns [s] with the time of opening as
    [last_updated]: the reviewed ids, [session_id] and [user_email] are those
    of [s], whatever email was given. *)
Theorem load_or_create_session_shared (owner email : string) (w : World)
    (s : UserSession) :
  (∀ (X : gset string) x, x ∈ set_to_list X ↔ x ∈ X) ->
  _validate_email email = true ->
  FileName._sanitize_email email = FileName._sanitize_email owner ->
  files w !! _get_session_file_path (evaluations_dir w) owner
    = Some (session_dict set_to_list s) ->
  ∃ w',
    load_or_create_session isoformat strftime email w
    = (Ok (set_last_updated (isoformat (clock w)) s), w')
    ∧ current_session w' = Some (set_last_updated (isoformat (clock w)) s)
    ∧ ∀ cid, has_reviewed cid w' = bool_decide (cid ∈ reviewed_case_ids s).
Proof.
  intros Hlist Hvalid Hsame Hfile.
  assert (Hpath : _get_session_file_path (evaluations_dir w) email
                  = _get_session_file_path (evaluations_dir w) owner).
  { unfold _get_session_file_path, FileName.session_file_name.
    rewrite Hsame. reflexivity. }
  rewrite (load_or_create_run email w Hvalid), Hpath, Hfile.
  rewrite (load_session_dict set_to_list Hlist _ w s Hfile).
  cbv zeta. eexists. split; [reflexivity|]. split; reflexivity.
Qed.

(** X7: saving the current session and opening it again in a store that has no
    session yet restores it: same reviewed ids, [session_id], [started_at]
    and [user_email]. *)
Theorem save_then_open (w w1 : World) (s saved : UserSession) :
  (∀ (X : gset string) x, x ∈ set_to_list X ↔ x ∈ X) ->
  current_session w = Some s ->
  _validate_email (user_email s) = true ->
  save_session isoformat set_to_list None w = (Ok saved, w1) ->
  ∃ opened w2,
    load_or_create_session isoformat strftime (user_email s)
      (set_current_session None w1) = (Ok opened, w2)
    ∧ reviewed_case_ids opened = reviewed_case_ids s
    ∧ session_id opened = session_id s
    ∧ started_at opened = started_at s
    ∧ user_email opened = user_email s
    ∧ current_session w2 = Some opened.
Proof.
  intros Hlist Hs Hvalid Hsave.
  pose proof (save_session_run isoformat set_to_list None w s Hs) as Hrun.
  cbv zeta in Hrun. destruct (files_writable w).
  2:{ destruct Hrun as (w0 & Hrun & _). rewrite Hrun in Hsave. discriminate. }
  destruct Hrun as (w0 & Hrun & Hdir & Hfiles).
  rewrite Hrun in Hsave. injection Hsave as <- <-.
  assert (Hfile : files (set_current_session None w0)
                    !! _get_session_file_path
                         (evaluations_dir (set_current_session None w0)) (user_email s)
                  = Some (session_dict set_to_list
                            (set_last_updated (isoformat (clock w)) s))).
  { cbn [set_current_session evaluations_dir files]. rewrite Hdir, Hfiles.
    apply lookup_insert_eq. }
  rewrite (load_or_create_run (user_email s) _ Hvalid), Hfile.
  rewrite (load_session_dict set_to_list Hlist _ _ _ Hfile).
  cbv zeta. eexists _, _. split; [reflexivity|]. repeat split; reflexivity.
Qed.


(** X9: loading fails by the kind of defect: no file, a document that is not a
    dictionary, a dictionary without [user_email]. *)
Theorem load_session_file_errors (path : string) (w : World) :
  (files w !! path = None -> _load_session_from_file path w = Raise (OSError path))
  ∧ (∀ doc, files w !! path = Some doc ->
       (∀ fields, doc ≠ JObject fields) ->
       _load_session_from_file path w = Raise TypeError)
  ∧ (∀ fields, files w !! path = Some (JObject fields) ->
       "user_email" ∉ fields.*1 ->
       _load_session_from_file path w = Raise (KeyError "user_email")).
Proof.
  unfold _load_session_from_file. split; [|split].
  - intros ->. reflexivity.
  - intros doc -> Hnot. destruct doc as [| | |fields]; try reflexivity.
    destruct (Hnot fields eq_refl).
  - intros fields -> Hmissing. cbn [json_getitem].
    assert (Hfind : List.find (fun kv : string * JSON => bool_decide (kv.1 = "user_email"))
                      fields = None).
    { induction fields as [|[k v] rest IH]; [reflexivity|].
      cbn [List.find fst]. rewrite fmap_cons, not_elem_of_cons in Hmissing.
      destruct Hmissing as [Hk Hrest].
      rewrite bool_decide_eq_false_2 by (cbn in Hk; congruence).
      exact (IH Hrest). }
    rewrite Hfind. reflexivity.
Qed.

(** X10: a session file without [reviewed_case_ids] loads as a session that has
    reviewed nothing. *)
Theorem load_session_without_ids (path : string) (w : World)
    (email sid started updated : string) :
  files w !! path
    = Some (JObject [ ("user_email", JString email); ("session_id", JString sid);
                      ("started_at", JString started);
                      ("last_updated", JString updated) ]) ->
  _load_session_from_file path w
  = Ok {| user_email := email; session_id := sid; started_at := started;
          last_updated := updated; reviewed_case_ids := ∅ |}.
Proof.
  intros Hfile. unfold _load_session_from_file. rewrite Hfile. reflexivity.
Qed.

End OpeningSessions.

(** ** Session statistics *)

Section StatisticsFacts.
Import Case Store Sessions.
Local Open Scope list_scope.
Local Open Scope nat_scope.

Variable set_to_list : gset string -> list string.

(** [list(s)] gives every element of [s] once. *)
Hypothesis set_to_list_permutation : ∀ X : gset string, set_to_list X ≡ₚ elements X.

Lemma filter_length_permutation (p : string -> bool) (l1 l2 : list string) :
  l1 ≡ₚ l2 -> length (List.filter p l1) = length (List.filter p l2).
Proof.
  induction 1 as [|x l1 l2 _ IH|x y l|l1 l2 l3 _ IH1 _ IH2]; cbn [List.filter].
  - reflexivity.
  - destruct (p x); cbn [length]; by rewrite IH.
  - destruct (p x), (p y); reflexivity.
  - by rewrite IH1.
Qed.

(** The loop of [get_statistics] counts, per counter, the ids that qualify. *)
Lemma count_cases (ld : CaseLoader) (l : list string) (acc : Counters) :
  fold_left (count_case ld) l acc
  = {| n_approved :=
         n_approved acc + length (List.filter (latest_decision_is ld "approve") l);
       n_rejected :=
         n_rejected acc + length (List.filter (latest_decision_is ld "reject") l);
       n_with_edits :=
         n_with_edits acc + length (List.filter (latest_has_edits ld) l) |}.
Proof.
  revert acc. induction l as [|cid l IH]; intros acc.
  - destruct acc. cbn. f_equal; lia.
  - cbn [fold_left List.filter]. rewrite IH.
    unfold count_case, latest_decision_is, latest_has_edits.
    destruct (cases ld !! cid) as [r|]; [|reflexivity].
    destruct (get_latest_evaluation r) as [e|]; [|reflexivity].
    destruct (bool_decide (ed_decision e = "approve")) eqn:Ha.
    + apply bool_decide_eq_true in Ha.
      rewrite (bool_decide_eq_false_2 (ed_decision e = "reject"))
        by (rewrite Ha; discriminate).
      destruct (ed_has_edits e); cbn; f_equal; lia.
    + destruct (bool_decide (ed_decision e = "reject"));
        destruct (ed_has_edits e); cbn; f_equal; lia.
Qed.

(** X11: the statistics of a session count what they name, in whatever order
    the reviewed set is walked: [approved] and [rejected] are the numbers of
    reviewed ids whose latest evaluation in the loader is an approval or a
    rejection, [with_edits] the number of those whose latest evaluation has
    edits, and [total_reviewed] the number of reviewed ids. *)
Theorem get_statistics_counts (w : World) (s : UserSession) :
  current_session w = Some s ->
  let ids := elements (reviewed_case_ids s) in
  get_statistics set_to_list w
  = {| total_reviewed := length ids;
       approved := length (List.filter (latest_decision_is (loader w) "approve") ids);
       rejected := length (List.filter (latest_decision_is (loader w) "reject") ids);
       with_edits := length (List.filter (latest_has_edits (loader w)) ids) |}.
Proof.
  intros Hs ids. subst ids. unfold get_statistics. rewrite Hs, count_cases.
  cbn [n_approved n_rejected n_with_edits].
  rewrite !(filter_length_permutation _ _ _
              (set_to_list_permutation (reviewed_case_ids s))).
  reflexivity.
Qed.

Lemma filter_disjoint_length (p q : string -> bool) (l : list string) :
  (∀ x, p x = true -> q x = false) ->
  length (List.filter p l) + length (List.filter q l) ≤ length l.
Proof.
  intros Hpq. induction l as [|x l IH]; cbn [List.filter length]; [lia|].
  destruct (p x) eqn:Hp; [rewrite (Hpq x Hp)|destruct (q x)]; cbn [length]; lia.
Qed.

(** X12: the counts never exceed the number of reviewed cases: approvals and
    rejections together, and the edited ones, are at most [total_reviewed];
    without a session every count is zero. *)
Theorem get_statistics_bounds (w : World) :
  let st := get_statistics set_to_list w in
  approved st + rejected st ≤ total_reviewed st
  ∧ with_edits st ≤ total_reviewed st
  ∧ (current_session w = None -> total_reviewed st = 0).
Proof.
  destruct (current_session w) as [s|] eqn:Hs.
  - unfold get_statistics. rewrite Hs, count_cases.
    cbn [approved rejected with_edits total_reviewed n_approved n_rejected
         n_with_edits Nat.add].
    assert (Hsize : size (reviewed_case_ids s)
                    = length (set_to_list (reviewed_case_ids s))).
    { rewrite (Permutation_length (set_to_list_permutation (reviewed_case_ids s))).
      reflexivity. }
    rewrite Hsize. split; [|split; [|discriminate]].
    + apply filter_disjoint_length. intros cid. unfold latest_decision_is.
      destruct (cases (loader w) !! cid) as [r|]; [|discriminate].
      destruct (get_latest_evaluation r) as [e|]; [|discriminate].
      intros Ha%bool_decide_eq_true. apply bool_decide_eq_false_2.
      rewrite Ha. discriminate.
    + apply List.filter_length_le.
  - unfold get_statistics. rewrite Hs. cbn. repeat split; lia.
Qed.

End StatisticsFacts.

(** ** More on the recording transaction *)

Section RecordingMore.
Import Case Store Sessions.
Local Open Scope list_scope.
#[local] Arguments add_human_evaluation : simpl never.
#[local] Arguments FileName.session_file_name : simpl never.

Variable isoformat : nat -> string.
Variable set_to_list : gset string -> list string.

(** The record is stored and the session file cannot be written. *)
Lemma record_evaluation_session_write_fails cid dec upd nts w s r r' :
  current_session w = Some s ->
  dec ∈ ["approve"; "reject"] ->
  cases (loader w) !! cid = Some r ->
  add_human_evaluation r dec (user_email s) upd nts (isoformat (clock w)) = Ok r' ->
  cases_writable (loader w) = true ->
  files_writable w = false ->
  ∃ msg w',
    record_evaluation isoformat set_to_list cid dec upd nts w
    = (Raise (RuntimeError msg), w')
    ∧ current_session w'
      = Some (set_last_updated (isoformat (S (clock w))) (add_reviewed cid s))
    ∧ cases (loader w') = <[case_id r' := r']> (cases (loader w))
    ∧ files w' = files w.
Proof.
  destruct w as [dir cs fs fw [cmap cw] clk]. cbn in *.
  intros -> Hd Hr Hadd -> ->.
  unfold record_evaluation, save_session, add_evaluation, save_case,
    get_case_by_id, write_json, now, try_except, bind, ret, raise,
    get_state, modify. cbn.
  rewrite (bool_decide_eq_true_2 _ Hd). cbn.
  rewrite Hr. cbn. rewrite Hadd. cbn.
  eexists _, _. split; [reflexivity|]. cbn. repeat split; reflexivity.
Qed.

(** X13: when the case record is stored and the session file then cannot be
    written, [record_evaluation] raises, and yet the id counts as reviewed
    in memory and the evaluation is in the case store, while the session
    file on disk is as before. *)
Theorem record_evaluation_unsaved_session cid dec upd nts w s r r' :
  current_session w = Some s ->
  dec ∈ ["approve"; "reject"] ->
  cases (loader w) !! cid = Some r ->
  add_human_evaluation r dec (user_email s) upd nts (isoformat (clock w)) = Ok r' ->
  cases_writable (loader w) = true ->
  files_writable w = false ->
  ∃ msg w',
    record_evaluation isoformat set_to_list cid dec upd nts w
    = (Raise (RuntimeError msg), w')
    ∧ has_reviewed cid w' = true
    ∧ cases (loader w') !! case_id r' = Some r'
    ∧ files w' = files w.
Proof.
  intros Hs Hd Hr Hadd Hcw Hfw.
  destruct (record_evaluation_session_write_fails cid dec upd nts w s r r'
              Hs Hd Hr Hadd Hcw Hfw) as (msg & w' & Hrun & Hsess & Hcases & Hfiles).
  exists msg, w'. split; [exact Hrun|]. split; [|split; [|exact Hfiles]].
  - unfold has_reviewed. rewrite Hsess. cbn [reviewed_case_ids set_last_updated add_reviewed].
    apply bool_decide_eq_true_2, elem_of_union_l, elem_of_singleton. reflexivity.
  - rewrite Hcases. apply lookup_insert_eq.
Qed.

(** Every way [record_evaluation] can end, for an active session. *)
Lemma record_evaluation_session_after cid dec upd nts w w' s res :
  current_session w = Some s ->
  record_evaluation isoformat set_to_list cid dec upd nts w = (res, w') ->
  (current_session w' = Some s ∧ ∀ r, res ≠ Ok r)
  ∨ (current_session w'
     = Some (set_last_updated (isoformat (S (clock w))) (add_reviewed cid s))
     ∧ ∃ r r', cases (loader w) !! cid = Some r
               ∧ add_human_evaluation r dec (user_email s) upd nts
                   (isoformat (clock w)) = Ok r'
               ∧ cases (loader w') = <[case_id r' := r']> (cases (loader w))).
Proof.
  intros Hs Hrun.
  destruct (decide (dec ∈ ["approve"; "reject"])) as [Hd|Hd].
  2:{ rewrite (record_evaluation_bad_decision _ _ _ _ _ _ _ _ Hs Hd) in Hrun.
      injection Hrun as <- <-. left. split; [exact Hs | discriminate]. }
  destruct (cases (loader w) !! cid) as [r|] eqn:Hr.
  2:{ rewrite (record_evaluation_not_found _ _ _ _ _ _ _ _ Hs Hd Hr) in Hrun.
      injection Hrun as <- <-. left. split; [exact Hs | discriminate]. }
  destruct (add_human_evaluation r dec (user_email s) upd nts
              (isoformat (clock w))) as [r'|e] eqn:Hadd.
  2:{ rewrite (record_evaluation_add_fails _ _ _ _ _ _ _ _ _ _ Hs Hd Hr Hadd) in Hrun.
      injection Hrun as <- <-. left. split; [exact Hs | discriminate]. }
  destruct (cases_writable (loader w)) eqn:Hcw.
  2:{ rewrite (record_evaluation_save_case_fails _ _ _ _ _ _ _ _ _ _ Hs Hd Hr Hadd Hcw)
        in Hrun.
      injection Hrun as <- <-. left. split; [exact Hs | discriminate]. }
  destruct (record_evaluation_saved isoformat set_to_list _ _ _ _ _ _ _ _ Hs Hd Hr Hadd Hcw)
    as (res0 & w0 & Hrun0 & Hsess & Hcases & _).
  rewrite Hrun0 in Hrun. injection Hrun as <- <-.
  right. split; [exact Hsess|]. exists r, r'. auto.
Qed.

(** X14: however [record_evaluation] ends, the session stays the same session:
    same email, id and start, no reviewed id lost, and no id gained other
    than the one being recorded. *)
Theorem record_evaluation_session_grows cid dec upd nts w w' s res :
  current_session w = Some s ->
  record_evaluation isoformat set_to_list cid dec upd nts w = (res, w') ->
  ∃ s',
    current_session w' = Some s'
    ∧ user_email s' = user_email s
    ∧ session_id s' = session_id s
    ∧ started_at s' = started_at s
    ∧ reviewed_case_ids s ⊆ reviewed_case_ids s'
    ∧ reviewed_case_ids s' ⊆ {[cid]} ∪ reviewed_case_ids s.
Proof.
  intros Hs Hrun.
  destruct (record_evaluation_session_after _ _ _ _ _ _ _ _ Hs Hrun)
    as [[Hsame _]|[Hnew _]].
  - exists s. split; [exact Hsame|]. repeat split; try reflexivity.
    apply union_subseteq_r.
  - eexists. split; [exact Hnew|].
    cbn [user_email session_id started_at reviewed_case_ids set_last_updated
         add_reviewed].
    repeat split; try reflexivity. apply union_subseteq_r.
Qed.

Lemma filter_without (X : gset string) (cid : string) (l : list string) :
  List.filter (fun x => negb (bool_decide (x ∈ {[cid]} ∪ X))) l
  = List.filter (fun x => negb (bool_decide (x = cid)))
      (List.filter (fun x => negb (bool_decide (x ∈ X))) l).
Proof.
  induction l as [|x l IH]; [reflexivity|]. cbn [List.filter].
  destruct (decide (x ∈ X)) as [Hin|Hout].
  - rewrite (bool_decide_eq_true_2 (x ∈ X) Hin),
      (bool_decide_eq_true_2 (x ∈ {[cid]} ∪ X)) by (apply elem_of_union_r, Hin).
    exact IH.
  - rewrite (bool_decide_eq_false_2 (x ∈ X) Hout). cbn [negb List.filter].
    destruct (decide (x = cid)) as [->|Hne].
    + rewrite (bool_decide_eq_true_2 (cid ∈ {[cid]} ∪ X))
        by (apply elem_of_union_l, elem_of_singleton; reflexivity).
      rewrite (bool_decide_eq_true_2 (cid = cid)) by reflexivity. exact IH.
    + rewrite (bool_decide_eq_false_2 (x ∈ {[cid]} ∪ X)).
      2:{ intros [Hx%elem_of_singleton|Hx]%elem_of_union; contradiction. }
      rewrite (bool_decide_eq_false_2 (x = cid) Hne). cbn [negb]. by rewrite IH.
Qed.

(** X15: after a successful [record_evaluation] the unreviewed cases are the ones
    that were unreviewed before, in the same order, without the recorded
    id. *)
Theorem record_evaluation_unreviewed cid dec upd nts w w' s
    (all_case_ids : list string) :
  current_session w = Some s ->
  record_evaluation isoformat set_to_list cid dec upd nts w = (Ok tt, w') ->
  get_unreviewed_cases all_case_ids w'
  = List.filter (fun x => negb (bool_decide (x = cid)))
      (get_unreviewed_cases all_case_ids w).
Proof.
  intros Hs Hrun.
  destruct (record_evaluation_session_after _ _ _ _ _ _ _ _ Hs Hrun)
    as [[_ Hno]|[Hnew _]]; [destruct (Hno tt eq_refl)|].
  unfold get_unreviewed_cases. rewrite Hs, Hnew.
  cbn [reviewed_case_ids set_last_updated add_reviewed]. apply filter_without.
Qed.

Lemma latest_evaluation_snoc (h : list Iteration) (it : Iteration) :
  is_evaluation it = true ->
  latest_evaluation (h ++ [it]) = eval_data_of it.
Proof.
  intros Hev. unfold is_evaluation in Hev.
  induction h as [|x h IH]; cbn [app latest_evaluation].
  - unfold eval_data_of. destruct (kind it); [discriminate | reflexivity].
  - rewrite IH. unfold eval_data_of. destruct (kind it); [discriminate | reflexivity].
Qed.

(** X16: recording and reading back; after a successful [record_evaluation] on a
    record stored under its own id whose last snapshot is a tagged case,
    [get_evaluation] returns a view of that evaluation: the decision, the
    session's email as evaluator, the notes, the time of recording, and as
    updated case exactly the edited case that was passed, if any. *)
Theorem record_then_get_evaluation cid dec upd nts w w' s r b :
  current_session w = Some s ->
  cases (loader w) !! cid = Some r ->
  case_id r = cid ->
  final_case r = Some (Tagged b) ->
  record_evaluation isoformat set_to_list cid dec upd nts w = (Ok tt, w') ->
  ∃ view,
    get_evaluation cid (loader w') = Ok (Some view)
    ∧ ce_case_id view = cid
    ∧ ce_decision view = dec
    ∧ ce_evaluator view = user_email s
    ∧ ce_notes view = nts
    ∧ evaluated_at view = isoformat (clock w)
    ∧ updated_case view = upd.
Proof.
  intros Hs Hr Hid Hfinal Hrun.
  destruct (record_evaluation_session_after _ _ _ _ _ _ _ _ Hs Hrun)
    as [[_ Hno]|[_ (r0 & r' & Hr0 & Hadd & Hcases)]]; [destruct (Hno tt eq_refl)|].
  rewrite Hr in Hr0. injection Hr0 as <-.
  revert Hadd. unfold add_human_evaluation.
  destruct (negb (valid_decision dec)); [discriminate|].
  set (snapshot := match upd with Some u => Some (Tagged u) | None => final_case r end).
  assert (Hsnap : ∃ c, snapshot = Some (Tagged c)
                       ∧ (if bool_decide (is_Some upd) then Some c else None) = upd).
  { subst snapshot. destruct upd as [u|].
    - exists u. split; [reflexivity|]. rewrite bool_decide_eq_true_2 by eauto. reflexivity.
    - exists b. split; [exact Hfinal|].
      rewrite bool_decide_eq_false_2 by (intros [? [=]]). reflexivity. }
  destruct Hsnap as (c & -> & Hupd). intros [= <-].
  unfold get_evaluation, get_latest_evaluation.
  rewrite Hcases. cbn [case_id refinement_history]. rewrite Hid, lookup_insert_eq.
  cbn [refinement_history]. rewrite latest_evaluation_snoc by reflexivity.
  unfold eval_data_of.
  cbn [kind iteration timestamp decision evaluator has_edits notes
       ed_iteration ed_has_edits].
  rewrite list_lookup_middle by reflexivity. cbn [data].
  destruct (bool_decide (is_Some upd)) eqn:Hedit; rewrite <- Hupd;
    (destruct (scan_back _ _) as [[d|b']|];
       [| |destruct (data <$> _ !! 0) as [[d|b']|]]);
    eexists; (split; [reflexivity|]); repeat split; reflexivity.
Qed.

(** X17: the two read-side queries agree: an id of the list is among the
    unreviewed cases exactly when [has_reviewed] denies it, with or without
    a session. *)
Theorem unreviewed_iff_not_reviewed (all_case_ids : list string) (w : World)
    (cid : string) :
  cid ∈ get_unreviewed_cases all_case_ids w
  ↔ cid ∈ all_case_ids ∧ has_reviewed cid w = false.
Proof.
  unfold get_unreviewed_cases, has_reviewed.
  destruct (current_session w) as [s|]; [|tauto].
  rewrite !list_elem_of_In, filter_In, negb_true_iff. reflexivity.
Qed.

End RecordingMore.

(** ** The calls of the whole pipeline *)

Section PipelineCalls.
Import Case Generator CallLog.
Local Open Scope list_scope.
Local Open Scope nat_scope.
#[local] Arguments rubric_prompt : simpl never.
#[local] Arguments refine_prompt : simpl never.
#[local] Arguments clarify_prompt : simpl never.
#[local] Arguments improve_prompt : simpl never.

Variable llm : Log -> Messages -> ResponseModel -> option Response.
Variable format_criteria : ResponseModel -> string.

Lemma tracked_ret {A} (a : A) : tracked 0 (ret a : M Log A).
Proof.
  intros log. exists []. cbn. rewrite app_nil_r.
  split; [reflexivity|]. split; [lia | constructor].
Qed.

Lemma tracked_weaken {A} (n k : nat) (m : M Log A) :
  n ≤ k -> tracked n m -> tracked k m.
Proof.
  intros Hle Hm log. destruct (Hm log) as (new & Hlog & Hlen & Hout).
  exists new. split; [exact Hlog|]. split; [lia | exact Hout].
Qed.

Lemma tracked_bind {A B} (n k : nat) (m : M Log A) (f : A -> M Log B) :
  tracked n m -> (∀ a, tracked k (f a)) -> tracked (n + k) (bind m f).
Proof.
  intros Hm Hf log. destruct (Hm log) as (new1 & Hlog1 & Hlen1 & Hout1).
  unfold bind. destruct (m log) as [[a|e] log1]; cbn [fst snd] in *; subst log1.
  - destruct (Hf a (log ++ new1)) as (new2 & Hlog2 & Hlen2 & Hout2).
    exists (new1 ++ new2). rewrite Hlog2, app_assoc, length_app.
    split; [reflexivity|]. split; [lia|].
    destruct ((f a (log ++ new1)).1).
    + apply Forall_app. split; assumption.
    + destruct Hout2 as (earlier & c & -> & Hearlier & Hc).
      exists (new1 ++ earlier), c. rewrite app_assoc.
      split; [reflexivity|]. split; [apply Forall_app; split; assumption | exact Hc].
  - exists new1. split; [reflexivity|]. split; [lia | exact Hout1].
Qed.

(** One completion call whose answer is then checked against the shape
    asked for. *)
Lemma tracked_completion {A} (msgs : Messages) (model : ResponseModel)
    (check : Response -> M Log A) :
  (∀ r log, response_fits model r = true ->
            ∃ a, check r log = (Ok a, log)) ->
  (∀ r log, response_fits model r = false ->
            ∃ e, check r log = (Raise e, log)) ->
  tracked 1 (bind (structured_completion llm msgs model) check).
Proof.
  intros Hfit Hmis log. unfold bind, structured_completion.
  exists [ {| call_messages := msgs; call_model := model;
              call_response := llm log msgs model |} ].
  destruct (llm log msgs model) as [r|] eqn:Hr.
  - destruct (response_fits model r) eqn:Hshape.
    + destruct (Hfit r (log ++ [ {| call_messages := msgs; call_model := model;
                                     call_response := Some r |} ]) Hshape) as [a ->].
      split; [reflexivity|]. split; [cbn; lia|].
      constructor; [exact Hshape | constructor].
    + destruct (Hmis r (log ++ [ {| call_messages := msgs; call_model := model;
                                     call_response := Some r |} ]) Hshape) as [e ->].
      split; [reflexivity|]. split; [cbn; lia|].
      exists [], {| call_messages := msgs; call_model := model;
                    call_response := Some r |}.
      split; [reflexivity|]. split; [constructor | exact Hshape].
  - split; [reflexivity|]. split; [cbn; lia|].
    exists [], {| call_messages := msgs; call_model := model; call_response := None |}.
    split; [reflexivity|]. split; [constructor | reflexivity].
Qed.

Lemma tracked_complete_draft (msgs : Messages) :
  tracked 1 (complete_draft llm msgs).
Proof.
  apply tracked_completion; intros [] log Hr; try discriminate Hr;
    eexists; reflexivity.
Qed.

Lemma tracked_complete_rubric (msgs : Messages) (model : ResponseModel) :
  model = ClinicalRubric ∨ model = EthicalRubric ∨ model = StylisticRubric ->
  tracked 1 (complete_rubric llm msgs model).
Proof.
  intros Hmodel. apply tracked_completion; intros [] log Hr;
    destruct Hmodel as [->|[->| ->]]; try discriminate Hr; eexists; reflexivity.
Qed.

Lemma tracked_complete_candidate (msgs : Messages) :
  tracked 1 (complete_candidate llm msgs).
Proof.
  apply tracked_completion; intros [] log Hr; try discriminate Hr;
    eexists; reflexivity.
Qed.

Lemma tracked_complete_value_rubric (msgs : Messages) :
  tracked 1 (complete_value_rubric llm msgs).
Proof.
  apply tracked_completion; intros [] log Hr; try discriminate Hr;
    eexists; reflexivity.
Qed.

Lemma tracked_critique_round (i : nat) (draft : DraftCase) :
  tracked 4 (critique_round llm format_criteria i draft).
Proof.
  unfold critique_round.
  apply (tracked_bind 1 3); [apply tracked_complete_rubric; auto|]. intros c.
  apply (tracked_bind 1 2); [apply tracked_complete_rubric; auto|]. intros e.
  apply (tracked_bind 1 1); [apply tracked_complete_rubric; auto|]. intros s.
  apply (tracked_bind 1 0); [apply tracked_complete_draft|]. intros r.
  apply tracked_ret.
Qed.

Lemma tracked_critique_refine_loop (draft : DraftCase) :
  tracked 8 (critique_refine_loop llm format_criteria draft).
Proof.
  unfold critique_refine_loop. cbn [for_range].
  apply (tracked_bind 4 4); [apply tracked_critique_round|]. intros d1.
  apply (tracked_bind 4 0); [apply tracked_critique_round|]. intros d2.
  apply tracked_ret.
Qed.

Lemma tracked_clarify_axis (draft : DraftCase) (b : BenchmarkCandidate)
    (acc : list (string * list string)) (value : string) :
  value ∈ value_axes ->
  tracked 1 (clarify_axis llm format_criteria draft b acc value).
Proof.
  intros Hvalue. unfold clarify_axis.
  assert (Htag : ∀ c, ∃ t, getitem_tag c value = Ok t).
  { intros c. unfold value_axes in Hvalue. unfold getitem_tag.
    repeat (apply elem_of_cons in Hvalue as [->|Hvalue]; [eexists; reflexivity|]).
    by apply elem_of_nil in Hvalue. }
  destruct (Htag (bc_choice_1 b)) as [t1 ->].
  destruct (Htag (bc_choice_2 b)) as [t2 ->].
  change (bind (lift (Ok t1)) ?k) with (k t1).
  change (bind (lift (Ok t2)) ?k) with (k t2). cbv beta.
  destruct (bool_decide (t1 ≠ neutral) || bool_decide (t2 ≠ neutral)).
  - apply (tracked_bind 1 0); [apply tracked_complete_value_rubric|]. intros v.
    destruct (negb (vr_overall_pass v)); apply tracked_ret.
  - apply (tracked_weaken 0 1); [lia | apply tracked_ret].
Qed.

Lemma tracked_for_each_clarify (draft : DraftCase) (b : BenchmarkCandidate)
    (axes : list string) (acc : list (string * list string)) :
  Forall (fun value => value ∈ value_axes) axes ->
  tracked (length axes)
    (for_each axes (clarify_axis llm format_criteria draft b) acc).
Proof.
  intros Haxes. revert acc.
  induction Haxes as [|value rest Hvalue _ IH]; intros acc; cbn [for_each length].
  - apply tracked_ret.
  - apply (tracked_bind 1 (length rest)); [apply tracked_clarify_axis, Hvalue|].
    exact IH.
Qed.

Lemma tracked_value_clarification (draft : DraftCase) (b : BenchmarkCandidate) :
  tracked 5 (value_clarification llm format_criteria draft b).
Proof.
  unfold value_clarification, collect_value_adjustments.
  apply (tracked_bind 4 1).
  - apply (tracked_for_each_clarify draft b value_axes []).
    apply Forall_forall. auto.
  - intros [|p ps]; [apply (tracked_weaken 0 1); [lia | apply tracked_ret]|].
    apply tracked_complete_candidate.
Qed.

Lemma tracked_generate (seed_text : string) :
  tracked 15 (generate llm format_criteria seed_text).
Proof.
  unfold generate.
  apply (tracked_bind 1 14); [apply tracked_complete_draft|]. intros d0.
  apply (tracked_bind 8 6); [apply tracked_critique_refine_loop|]. intros d.
  apply (tracked_bind 1 5); [apply tracked_complete_candidate|]. intros b.
  apply tracked_value_clarification.
Qed.

(** X19: whatever the completion service answers, a run of the pipeline only
    appends to the call log, and appends at most fifteen calls: one draft,
    two rounds of four, one tagging, at most four clarification audits and
    one adjustment. *)
Theorem generate_call_budget (seed_text : string) (log : Log) :
  ∃ new,
    (generate llm format_criteria seed_text log).2 = log ++ new
    ∧ length new ≤ 15.
Proof.
  destruct (tracked_generate seed_text log) as (new & Hlog & Hlen & _).
  exists new. split; assumption.
Qed.


(** X21: the data flow of a run that returns: the draft answered for the seed is
    audited and refined, that refinement is audited and refined again, the
    second refinement is what gets tagged, the clarification audits and the
    adjustment are about that same second refinement, and the result is the
    adjustment's answer, or the tagged case when no audit failed. *)
Theorem generate_trace (seed_text : string) (final : BenchmarkCandidate)
    (log log' : Log) :
  generate llm format_criteria seed_text log = (Ok final, log') ->
  ∃ d0 c1 e1 s1 d1 c2 e2 s2 d2 tagged_case audits,
    log' = log ++ [seed_call seed_text d0]
           ++ round_calls format_criteria d0 c1 e1 s1 d1
           ++ round_calls format_criteria d1 c2 e2 s2 d2
           ++ [tag_call d2 tagged_case]
           ++ audits
           ++ match failing_pairs audits with
              | [] => []
              | _ :: _ => [improve_call d2 (failing_pairs audits) final]
              end
    ∧ Forall (audit_call format_criteria d2 tagged_case) audits
    ∧ (failing_pairs audits = [] -> final = tagged_case)
    ∧ 10 ≤ length log' - length log ≤ 15.
Proof.
  unfold generate. unfold bind at 1.
  destruct (complete_draft llm _ log) as [[d0|e0] log0] eqn:H0; [|discriminate].
  unfold bind at 1.
  destruct (critique_refine_loop llm format_criteria d0 log0)
    as [[d2|e2] log2] eqn:Hloop; [|discriminate].
  unfold bind at 1.
  destruct (complete_candidate llm _ log2) as [[tc|e3] log3] eqn:Htag; [|discriminate].
  intros Hvalues.
  (* the seed call *)
  revert H0. unfold complete_draft, structured_completion, bind, ret, raise.
  destruct (llm log _ DraftCaseModel) as [[d| | |]|]; try discriminate.
  intros [= -> <-].
  (* the two rounds *)
  revert Hloop. unfold critique_refine_loop. cbn [for_range]. unfold bind at 1 2, ret.
  destruct (critique_round llm format_criteria 0 d0 _) as [[d1|e1'] log1] eqn:H1;
    [|discriminate].
  destruct (critique_round llm format_criteria 1 d1 log1) as [[d2'|e2'] log2'] eqn:H2;
    [|discriminate].
  intros [= -> ->].
  apply critique_round_calls in H1 as (c1 & e1 & s1 & ->).
  apply critique_round_calls in H2 as (c2 & e2 & s2 & ->).
  (* the tagging call *)
  revert Htag. unfold complete_candidate, structured_completion, bind, ret, raise.
  destruct (llm _ _ BenchmarkCandidateModel) as [[| |b|]|]; try discriminate.
  intros [= -> <-].
  (* the value clarification *)
  revert Hvalues. unfold value_clarification, collect_value_adjustments.
  unfold bind at 1.
  destruct (for_each value_axes _ [] _) as [[adj|e4] log4] eqn:Heach; [|discriminate].
  apply for_each_clarify in Heach as (audits & -> & Hall & Haxes & ->).
  cbn [app]. intros Hfinal.
  assert (Hcount : length audits ≤ 4).
  { assert (Hlen : length (audited_axes audits) = length audits).
    { clear -Hall. induction Hall as [|c l (v & t1 & t2 & vr & _ & _ & ->) _ IH];
        [reflexivity|].
      change (audited_axes (?c :: l)) with (audited_axes ([c] ++ l)).
      rewrite audited_axes_app, length_app, IH.
      rewrite (proj1 (audit_call_readings format_criteria d2 v t1 t2 vr)).
      reflexivity. }
    rewrite <- Hlen, Haxes. apply (List.filter_length_le _ value_axes). }
  exists d0, c1, e1, s1, d1, c2, e2, s2, d2, tc, audits.
  destruct (failing_pairs audits) as [|p ps] eqn:Hpairs.
  - injection Hfinal as <- <-.
    split; [rewrite app_nil_r, <- !app_assoc; reflexivity|].
    split; [exact Hall|]. split; [reflexivity|].
    rewrite !length_app. cbn [length round_calls]. lia.
  - revert Hfinal. unfold complete_candidate, structured_completion, bind, ret, raise.
    destruct (llm _ _ BenchmarkCandidateModel) as [[| |b'|]|]; try discriminate.
    intros [= <- <-].
    split; [rewrite <- !app_assoc; reflexivity|].
    split; [exact Hall|]. split; [discriminate|].
    rewrite !length_app. cbn [length round_calls]. lia.
Qed.

End PipelineCalls.

(** ** The further properties on sample data *)

Section FurtherExamples.
Import Case Store Generator Sessions CallLog Samples MoreSamples.
Local Open Scope list_scope.

Lemma validated_email_file_name_witness :
  FileName.session_file_name "Maya.Dagan@Example.com"
  = "session_maya.dagan_example.com.json".
Proof.
  destruct (validated_email_file_name "Maya.Dagan@Example.com") as [-> _];
    [vm_compute|]; reflexivity.
Defined.


Lemma load_or_create_session_outcome_witness :
  load_or_create_session sample_isoformat sample_strftime "not an email" world_idle
  = (Raise (ValueError "Invalid email format: not an email"), world_idle).
Proof.
  apply (proj1 (load_or_create_session_outcome sample_isoformat sample_strftime
                  "not an email" world_idle)).
  vm_compute. reflexivity.
Defined.

Lemma load_or_create_session_fresh_witness :
  ∃ s w',
    load_or_create_session sample_isoformat sample_strftime "a@b.org" world_idle
    = (Ok s, w')
    ∧ session_id s = "a_b.org_20250103_000000"
    ∧ reviewed_case_ids s = ∅.
Proof.
  destruct (load_or_create_session_fresh sample_isoformat sample_strftime
              "a@b.org" world_idle)
    as (s & w' & Hrun & _ & Hids & Hsid & _).
  - vm_compute. reflexivity.
  - reflexivity.
  - exists s, w'. split; [exact Hrun|]. split; [exact Hsid | exact Hids].
Defined.

(** "a_b@x.org" opens the session saved for "a+b@x.org". *)
Lemma load_or_create_session_shared_witness :
  ∃ w',
    load_or_create_session sample_isoformat sample_strftime "a_b@x.org" world_saved
    = (Ok (set_last_updated (sample_isoformat 5) session_plus), w')
    ∧ has_reviewed "c7" w' = true.
Proof.
  destruct (load_or_create_session_shared sample_isoformat sample_strftime elements
              "a+b@x.org" "a_b@x.org" world_saved session_plus
              (fun X x => elem_of_elements X x))
    as (w' & Hrun & _ & Hrev).
  - vm_compute. reflexivity.
  - vm_compute. reflexivity.
  - reflexivity.
  - exists w'. split; [exact Hrun|]. rewrite Hrev. reflexivity.
Defined.

Lemma save_then_open_witness :
  ∃ opened w2,
    load_or_create_session sample_isoformat sample_strftime "a@b.org"
      (set_current_session None
         (save_session sample_isoformat elements None world_ab).2)
    = (Ok opened, w2)
    ∧ reviewed_case_ids opened = {["c2"]}.
Proof.
  destruct (save_session_succeeds sample_isoformat elements None world_ab session_ab
              eq_refl eq_refl) as [w1 Hsave].
  assert (Hvalid : _validate_email (user_email session_ab) = true)
    by (vm_compute; reflexivity).
  destruct (save_then_open sample_isoformat sample_strftime elements world_ab w1
              session_ab _ (fun X x => elem_of_elements X x) eq_refl Hvalid Hsave)
    as (opened & w2 & Hopen & Hids & _).
  exists opened, w2. rewrite Hsave. split; [exact Hopen | exact Hids].
Defined.


Lemma load_session_file_errors_witness :
  _load_session_from_file "data/evaluations/session_a_b.org.json" world_idle
  = Raise (OSError "data/evaluations/session_a_b.org.json").
Proof.
  exact (proj1 (load_session_file_errors "data/evaluations/session_a_b.org.json"
                  world_idle) eq_refl).
Defined.

Lemma load_session_without_ids_witness :
  ∃ s, load_session "a@b.org" world_old_file = Ok s ∧ reviewed_case_ids s = ∅.
Proof.
  eexists. split.
  - apply (load_session_without_ids
             "data/evaluations/session_a_b.org.json" world_old_file).
    reflexivity.
  - reflexivity.
Defined.

Lemma get_statistics_counts_witness :
  get_statistics elements world_counted
  = {| total_reviewed := 2; approved := 0; rejected := 1; with_edits := 1 |}.
Proof.
  rewrite (get_statistics_counts elements (fun X => reflexivity _) world_counted _
             eq_refl).
  vm_compute. reflexivity.
Defined.

Lemma get_statistics_bounds_witness :
  (approved (get_statistics elements world_counted)
   + rejected (get_statistics elements world_counted)
   ≤ total_reviewed (get_statistics elements world_counted))%nat.
Proof.
  exact (proj1 (get_statistics_bounds elements (fun X => reflexivity _)
                  world_counted)).
Defined.

Lemma record_evaluation_unsaved_session_witness :
  ∃ msg w',
    record_evaluation sample_isoformat elements "case_1" "approve" None None
      world_read_only = (Raise (RuntimeError msg), w')
    ∧ has_reviewed "case_1" w' = true.
Proof.
  destruct (record_evaluation_unsaved_session sample_isoformat elements "case_1"
              "approve" None None world_read_only session_ab record_snapshots _
              eq_refl (list_elem_of_here _ _) eq_refl eq_refl eq_refl eq_refl)
    as (msg & w' & Hrun & Hrev & _).
  exists msg, w'. split; [exact Hrun | exact Hrev].
Defined.

Lemma record_evaluation_session_grows_witness :
  ∃ s',
    current_session
      (record_evaluation sample_isoformat elements "case_1" "approve" None None
         world_review).2 = Some s'
    ∧ reviewed_case_ids session_ab ⊆ reviewed_case_ids s'.
Proof.
  destruct (record_evaluation_session_grows sample_isoformat elements "case_1"
              "approve" None None world_review _ session_ab _ eq_refl eq_refl)
    as (s' & Hcur & _ & _ & _ & Hsub & _).
  exists s'. split; [exact Hcur | exact Hsub].
Defined.

Lemma record_evaluation_unreviewed_witness :
  get_unreviewed_cases ["case_1"; "c2"; "c3"]
    (record_evaluation sample_isoformat elements "case_1" "approve" None None
       world_review).2
  = ["c3"].
Proof.
  destruct (record_evaluation_succeeds sample_isoformat elements "case_1" "approve"
              None None world_review session_ab record_snapshots _
              eq_refl (list_elem_of_here _ _) eq_refl eq_refl eq_refl eq_refl)
    as [w' Hw'].
  rewrite Hw'. cbn [snd].
  rewrite (record_evaluation_unreviewed sample_isoformat elements "case_1" "approve"
             None None world_review w' session_ab ["case_1"; "c2"; "c3"]
             eq_refl Hw').
  reflexivity.
Defined.

Lemma record_then_get_evaluation_witness :
  ∃ view,
    get_evaluation "case_1"
      (loader (record_evaluation sample_isoformat elements "case_1" "reject"
                 (Some case_C) (Some "unclear") world_review).2)
    = Ok (Some view)
    ∧ ce_decision view = "reject"
    ∧ updated_case view = Some case_C.
Proof.
  destruct (record_evaluation_succeeds sample_isoformat elements "case_1" "reject"
              (Some case_C) (Some "unclear") world_review session_ab
              record_snapshots _
              eq_refl (list_elem_of_further _ _ _ (list_elem_of_here _ _))
              eq_refl eq_refl eq_refl eq_refl)
    as [w' Hw'].
  destruct (record_then_get_evaluation sample_isoformat elements "case_1" "reject"
              (Some case_C) (Some "unclear") world_review w' session_ab
              record_snapshots case_B eq_refl eq_refl eq_refl eq_refl Hw')
    as (view & Hget & _ & Hdec & _ & _ & _ & Hupd).
  exists view. rewrite Hw'. split; [exact Hget|]. split; [exact Hdec | exact Hupd].
Defined.


(** Two evaluations and no snapshot: the original case is the data of
    iteration 0. *)
Lemma get_evaluation_fallback_witness :
  get_evaluation "case_1" (loader_of record_two_evaluations)
  = Ok (Some (view_of "case_1"
                {| iteration := 1; kind := HumanEvaluation meta_edit;
                   data := Tagged case_C; timestamp := "2025-01-03T00:00:00" |}
                meta_edit case_A (Some case_C))).
Proof.
  refine (get_evaluation_fallback "case_1" (loader_of record_two_evaluations)
            record_two_evaluations 1 _ _ meta_edit case_A case_C
            _ _ _ _ _ _ _ _ _); try reflexivity.
  - intros [|[|k]] it Hk; try discriminate; injection Hk as <-; reflexivity.
  - intros [|[|k]] it Hlt Hk; try lia; discriminate.
  - intros [|k] it Hlt Hk; [injection Hk as <-; reflexivity | lia].
Defined.

Lemma generate_trace_witness :
  (generate llm_all_pass sample_criteria "seed" []).1 = Ok case_adjusted
  ∧ (10 ≤ length (generate llm_all_pass sample_criteria "seed" []).2 - 0 ≤ 15)%nat.
Proof.
  split; [vm_compute; reflexivity|].
  destruct (generate_trace llm_all_pass sample_criteria "seed" case_adjusted []
              (generate llm_all_pass sample_criteria "seed" []).2)
    as (d0 & c1 & e1 & s1 & d1 & c2 & e2 & s2 & d2 & tc & audits & _ & _ & _ & Hlen).
  - vm_compute. reflexivity.
  - exact Hlen.
Defined.

End FurtherExamples.
